(** * WebGL helper functions of [scripts/wegl-utils.js]

    A shallow embedding of the seven functions of the module and of the
    two objects they talk to: the rendering context [gl] and the
    [document].

    - JavaScript numbers are IEEE 754 binary64 values: [float].
    - The rendering context is an interface ([WebGLRenderingContext]): a
      deterministic machine that answers every method call from its
      current state.  Its methods are taken to return normally (the
      helpers never catch anything, and none of the properties below is
      about a method of the context throwing).
    - A helper is a tree ([prog]) of the context calls it makes, each
      continued by a function of the answer; [run] plays such a tree
      against a context and records the calls with their answers, the way
      a spying mock does. *)

From Stdlib Require Import PrimFloat.
From stdpp Require Import base option strings list gmap.

(** ** JavaScript values *)

(** The values that reach the helpers through untyped positions: what the
    context answers for [any] results and object handles, and what a
    property read of a colour object gives. *)
Inductive value : Type :=
| VUndefined
| VNull
| VBool (b : bool)
| VNum (n : float)
| VStr (s : string)
| VObj (id : N).   (* a host object: WebGLShader, WebGLProgram, WebGLBuffer *)

(** [!v] is [negb (truthy v)]. *)
Definition truthy (v : value) : bool :=
  match v with
  | VUndefined | VNull => false
  | VBool b => b
  | VNum n => negb (PrimFloat.eqb n 0 || negb (PrimFloat.eqb n n))
  | VStr s => negb (String.eqb s EmptyString)
  | VObj _ => true
  end.

(** A plain object read by property name; an absent property reads as
    [undefined]. *)
Definition get (o : gmap string value) (p : string) : value :=
  default VUndefined (o !! p).

(** A nullable [DOMString] spliced into a string. *)
Definition ToString (s : option string) : string :=
  match s with
  | Some s => s
  | None => "null"
  end.

(** What a [throw] carries: [new Error(message)], or the [TypeError] the
    engine raises for a property read on [null]. *)
Inductive JsError : Type :=
| Error (message : string)
| TypeError.

Inductive completion (A : Type) : Type :=
| Normal (a : A)
| Thrown (e : JsError).
Arguments Normal {A} a.
Arguments Thrown {A} e.

(** ** The rendering context *)

(** The constants the helpers read off [gl]. *)
Record WebGLConstants : Type := {
  VERTEX_SHADER : float;
  FRAGMENT_SHADER : float;
  COMPILE_STATUS : float;
  LINK_STATUS : float;
  VALIDATE_STATUS : float;
  ARRAY_BUFFER : float;
  STATIC_DRAW : float;
  COLOR_BUFFER_BIT : float;
  TRIANGLE_STRIP : float;
}.

(** The methods of [gl], with the arguments as the caller passes them.
    The three [Delete…] methods belong to the interface; the module calls
    only the first. *)
Inductive glCall : Type :=
| CreateShader (type : float)
| ShaderSource (shader : value) (source : string)
| CompileShader (shader : value)
| GetShaderParameter (shader : value) (pname : float)
| GetShaderInfoLog (shader : value)
| DeleteShader (shader : value)
| CreateProgram
| AttachShader (program shader : value)
| LinkProgram (program : value)
| ValidateProgram (program : value)
| GetProgramParameter (program : value) (pname : float)
| GetProgramInfoLog (program : value)
| DeleteProgram (program : value)
| CreateBuffer
| BindBuffer (target : float) (buffer : value)
| BufferData (target : float) (data : option (list float)) (usage : float)
| DeleteBuffer (buffer : value)
| GetAttribLocation (program : value) (name : string)
| VertexAttribPointer (index size type : float) (normalized : bool)
    (stride offset : float)
| EnableVertexAttribArray (index : float)
| Viewport (x y width height : float)
| ClearColor (red green blue alpha : value)
| Clear (mask : float)
| UseProgram (program : value)
| DrawArrays (mode first count : float).

(** The type of the answer to each call. *)
Definition resp (c : glCall) : Type :=
  match c with
  | CreateShader _ | CreateProgram | CreateBuffer => value
  | GetShaderParameter _ _ | GetProgramParameter _ _ => value
  | GetShaderInfoLog _ | GetProgramInfoLog _ => option string
  | GetAttribLocation _ _ => float
  | _ => unit
  end.

(** The two properties of [gl.canvas] that are read. *)
Inductive canvasProp : Type := width | height.

Class WebGLRenderingContext (Σ : Type) : Type := {
  respond : ∀ c : glCall, Σ → resp c * Σ;
  canvas : canvasProp → Σ → float;
}.

(** ** Programs over the context *)

Inductive prog (A : Type) : Type :=
| Ret (a : A)
| Throw (e : JsError)
| Call (c : glCall) (k : resp c → prog A)
| ReadCanvas (p : canvasProp) (k : float → prog A).
Arguments Ret {A} a.
Arguments Throw {A} e.
Arguments Call {A} c k.
Arguments ReadCanvas {A} p k.

Fixpoint bind {A B : Type} (m : prog A) (f : A → prog B) : prog B :=
  match m with
  | Ret a => f a
  | Throw e => Throw e
  | Call c k => Call c (λ r, bind (k r) f)
  | ReadCanvas p k => ReadCanvas p (λ r, bind (k r) f)
  end.

#[export] Instance prog_ret : MRet prog := @Ret.
#[export] Instance prog_bind : MBind prog := λ A B f m, bind m f.

Definition call (c : glCall) : prog (resp c) := Call c Ret.
Definition read (p : canvasProp) : prog float := ReadCanvas p Ret.

(** One recorded interaction: a call and the context's answer. *)
Record interaction : Type := Answered { called : glCall; answer : resp called }.
Notation "c ↦ r" := (Answered c r) (at level 60, no associativity).

(** How a run ends. *)
Record ran (A Σ : Type) : Type := Ran {
  outcome : completion A;
  final : Σ;
  log : list interaction;
}.
Arguments Ran {A Σ} outcome final log.
Arguments outcome {A Σ} r.
Arguments final {A Σ} r.
Arguments log {A Σ} r.

Definition logged {A Σ : Type} (i : interaction) (r : ran A Σ) : ran A Σ :=
  Ran (outcome r) (final r) (i :: log r).

Fixpoint run {A Σ : Type} `{!WebGLRenderingContext Σ} (p : prog A) (s : Σ)
  : ran A Σ :=
  match p with
  | Ret a => Ran (Normal a) s []
  | Throw e => Ran (Thrown e) s []
  | Call c k =>
      let r := respond c s in logged (c ↦ r.1) (run (k r.1) r.2)
  | ReadCanvas p k => run (k (canvas p s)) s
  end.

(** The calls the context received, in order. *)
Definition calls (l : list interaction) : list glCall := called <$> l.

(** ** [makeShader] *)

Definition makeShader (gl : WebGLConstants) (shaderSource : string)
    (shaderType : float) : prog value :=
  newShader ← call (CreateShader shaderType);
  _ ← call (ShaderSource newShader shaderSource);
  _ ← call (CompileShader newShader);
  status ← call (GetShaderParameter newShader (COMPILE_STATUS gl));
  if negb (truthy status) then
    _ ← call (DeleteShader newShader);
    infoLog ← call (GetShaderInfoLog newShader);
    Throw (Error ("ERROR compiling "
                  +:+ (if PrimFloat.eqb shaderType (VERTEX_SHADER gl)
                       then "vertex" else "fragment")
                  +:+ " shader: " +:+ ToString infoLog))
  else
    mret newShader.

(** ** [makeProgram] *)

(** [validate] is [None] when the caller leaves the argument out. *)
Definition makeProgram (gl : WebGLConstants) (vertexShader fragmentShader : value)
    (validate : option bool) : prog value :=
  let validate := default true validate in
  program ← call CreateProgram;
  _ ← call (AttachShader program vertexShader);
  _ ← call (AttachShader program fragmentShader);
  _ ← call (LinkProgram program);
  linked ← call (GetProgramParameter program (LINK_STATUS gl));
  if negb (truthy linked) then
    infoLog ← call (GetProgramInfoLog program);
    Throw (Error ("ERROR linking program: " +:+ ToString infoLog))
  else if validate then
    _ ← call (ValidateProgram program);
    valid ← call (GetProgramParameter program (VALIDATE_STATUS gl));
    if negb (truthy valid) then
      infoLog ← call (GetProgramInfoLog program);
      Throw (Error ("ERROR validating program: " +:+ ToString infoLog))
    else
      mret program
  else
    mret program.

(** ** [makeProgramFromScripts] *)

Record Element : Type := { textContent : string }.

(** The document, as far as the module uses it: [querySelector], from a
    selector to the first matching element or [null]. *)
Definition Document : Type := string → option Element.

(** [shaderIds[i]] inside a template literal: a missing entry splices as
    ["undefined"]. *)
Definition idAt (shaderIds : list string) (i : nat) : string :=
  default "undefined" (shaderIds !! i).

(** [document.querySelector(selector).textContent]: reading a property
    of [null] throws. *)
Definition scriptText (document : Document) (selector : string) : prog string :=
  match document selector with
  | Some element => mret (textContent element)
  | None => Throw TypeError
  end.

Definition makeProgramFromScripts (gl : WebGLConstants) (document : Document)
    (shaderIds : list string) : prog value :=
  vertexSource ← scriptText document ("#" +:+ idAt shaderIds 0);
  vertexShader ← makeShader gl vertexSource (VERTEX_SHADER gl);
  fragmentSource ← scriptText document ("#" +:+ idAt shaderIds 1);
  fragmentShader ← makeShader gl fragmentSource (FRAGMENT_SHADER gl);
  makeProgram gl vertexShader fragmentShader None.

(** ** [createAttribute] *)

Record AttributeObject : Type := {
  name : string;
  size : float;
  stride : float;
  offset : float;
  type : float;
  normalized : bool;
}.

Definition Float32Array_BYTES_PER_ELEMENT : float := 4.

(** The last three arguments are optional. *)
Definition createAttribute (name : string) (numElements numVertex type : float)
    (offset typeSize : option float) (normalized : option bool)
  : AttributeObject :=
  let offset := default 0%float offset in
  let typeSize := default Float32Array_BYTES_PER_ELEMENT typeSize in
  let normalized := default false normalized in
  {| name := name;
     size := numElements;
     stride := numVertex * typeSize;
     offset := offset * typeSize;
     type := type;
     normalized := normalized |}.

(** ** [createBuffer] *)

Fixpoint forEach {A : Type} (l : list A) (f : A → prog unit) : prog unit :=
  match l with
  | [] => mret tt
  | x :: l => _ ← f x; forEach l f
  end.

(** What the callback of [attributes.forEach] does with one descriptor. *)
Definition configure (program : value) (attr : AttributeObject) : prog unit :=
  attrLocation ← call (GetAttribLocation program (name attr));
  _ ← call (VertexAttribPointer attrLocation (size attr) (type attr)
              (normalized attr) (stride attr) (offset attr));
  call (EnableVertexAttribArray attrLocation).

(** [bufferData] is [None] for [null]; the last two arguments are
    optional. *)
Definition createBuffer (gl : WebGLConstants) (program : value)
    (bufferData : option (list float)) (attributes : list AttributeObject)
    (type' bufferDataType : option float) : prog unit :=
  let type' := default (ARRAY_BUFFER gl) type' in
  let bufferDataType := default (STATIC_DRAW gl) bufferDataType in
  buffer ← call CreateBuffer;
  _ ← call (BindBuffer type' buffer);
  _ ← call (BufferData type' bufferData bufferDataType);
  forEach attributes (configure program).

(** ** [clearCanvas] *)

Definition clearCanvas (gl : WebGLConstants) (color : gmap string value)
  : prog unit :=
  _ ← call (ClearColor (get color "r") (get color "g") (get color "b")
              (get color "a"));
  call (Clear (COLOR_BUFFER_BIT gl)).

(** ** [drawCanvas] *)

Definition rgba (r g b a : float) : gmap string value :=
  {[ "r" := VNum r; "g" := VNum g; "b" := VNum b; "a" := VNum a ]}.

(** Every argument after [gl] is optional. *)
Definition drawCanvas (gl : WebGLConstants) (document : Document)
    (bufferData : option (list float))
    (attributes : option (list AttributeObject))
    (shaderIds : option (list string))
    (clearColor : option (gmap string value)) : prog unit :=
  let attributes := default [] attributes in
  let shaderIds := default ["vertexShader"; "fragmentShader"] shaderIds in
  let clearColor := default (rgba 0 0 0 0) clearColor in
  program ← makeProgramFromScripts gl document shaderIds;
  _ ← createBuffer gl program bufferData attributes None None;
  w ← read width;
  h ← read height;
  _ ← call (Viewport 0 0 w h);
  _ ← clearCanvas gl clearColor;
  _ ← call (UseProgram program);
  call (DrawArrays (TRIANGLE_STRIP gl) 0 4).

(** ** A mock context

    A small context in the manner of a browser's: it hands out numbered
    objects, keeps a table of the live shaders and of the programs, and
    forgets a shader when it is deleted, after which the shader's status
    and log read as [null].  Its driver is scripted by five fields that no
    call changes. *)
Module Mock.

Record shader : Type := Shader {
  source : string;
  infoLog : option string;   (* [None] until compiled *)
  compiled : bool;
}.

Record program : Type := Program {
  linked : bool;
  validated : bool;
}.

Record state : Type := State {
  (* the scripted driver *)
  diagnose : string → option string;  (* the complaint about a source, if any *)
  links : bool;
  validates : bool;
  attribs : list (string * float);
  dims : float * float;
  (* what the calls change *)
  next : N;
  shaders : gmap N shader;
  programs : gmap N program;
}.

Definition webgl : WebGLConstants :=
  {| VERTEX_SHADER := 0x8B31; FRAGMENT_SHADER := 0x8B30;
     COMPILE_STATUS := 0x8B81; LINK_STATUS := 0x8B82;
     VALIDATE_STATUS := 0x8B83; ARRAY_BUFFER := 0x8892;
     STATIC_DRAW := 0x88E4; COLOR_BUFFER_BIT := 0x4000;
     TRIANGLE_STRIP := 5 |}.

Definition FLOAT : float := 0x1406.

Definition fresh (s : state) : state :=
  State (diagnose s) (links s) (validates s) (attribs s) (dims s)
    (N.succ (next s)) (shaders s) (programs s).

Definition with_shaders (f : gmap N shader → gmap N shader) (s : state)
  : state :=
  State (diagnose s) (links s) (validates s) (attribs s) (dims s)
    (next s) (f (shaders s)) (programs s).

Definition with_programs (f : gmap N program → gmap N program) (s : state)
  : state :=
  State (diagnose s) (links s) (validates s) (attribs s) (dims s)
    (next s) (shaders s) (f (programs s)).

Definition on_object {A : Type} (v : value) (f : N → A) (a : A) : A :=
  match v with VObj id => f id | _ => a end.

Definition compile (diagnose : string → option string) (sh : shader)
  : shader :=
  match diagnose (source sh) with
  | Some complaint => Shader (source sh) (Some complaint) false
  | None => Shader (source sh) (Some EmptyString) true
  end.

Fixpoint location (attribs : list (string * float)) (name : string) : float :=
  match attribs with
  | [] => (-1)%float
  | (n, i) :: attribs => if String.eqb n name then i else location attribs name
  end.

Definition react (c : glCall) : state → resp c * state :=
  match c as c return state → resp c * state with
  | CreateShader _ => λ s,
      (VObj (next s),
       fresh (with_shaders (insert (next s) (Shader EmptyString None false)) s))
  | ShaderSource sh src => λ s,
      (tt, on_object sh (λ id,
             with_shaders (alter (λ r, Shader src (infoLog r) (compiled r)) id) s) s)
  | CompileShader sh => λ s,
      (tt, on_object sh (λ id,
             with_shaders (alter (compile (diagnose s)) id) s) s)
  | GetShaderParameter sh pname => λ s,
      (match on_object sh (λ id, shaders s !! id) None with
       | Some r =>
           if PrimFloat.eqb pname (COMPILE_STATUS webgl)
           then VBool (compiled r) else VNull
       | None => VNull
       end, s)
  | GetShaderInfoLog sh => λ s,
      (match on_object sh (λ id, shaders s !! id) None with
       | Some r => Some (default EmptyString (infoLog r))
       | None => None
       end, s)
  | DeleteShader sh => λ s,
      (tt, on_object sh (λ id, with_shaders (delete id) s) s)
  | CreateProgram => λ s,
      (VObj (next s),
       fresh (with_programs (insert (next s) (Program false false)) s))
  | LinkProgram p => λ s,
      (tt, on_object p (λ id,
             with_programs (alter (λ r, Program (links s) (validated r)) id) s) s)
  | ValidateProgram p => λ s,
      (tt, on_object p (λ id,
             with_programs (alter (λ r, Program (linked r) (validates s)) id) s) s)
  | GetProgramParameter p pname => λ s,
      (match on_object p (λ id, programs s !! id) None with
       | Some r =>
           if PrimFloat.eqb pname (LINK_STATUS webgl) then VBool (linked r)
           else if PrimFloat.eqb pname (VALIDATE_STATUS webgl)
           then VBool (validated r) else VNull
       | None => VNull
       end, s)
  | GetProgramInfoLog p => λ s,
      (match on_object p (λ id, programs s !! id) None with
       | Some r =>
           Some (if linked r then
                   if validated r then EmptyString else "validation failed"
                 else "link failed")
       | None => None
       end, s)
  | DeleteProgram p => λ s,
      (tt, on_object p (λ id, with_programs (delete id) s) s)
  | CreateBuffer => λ s, (VObj (next s), fresh s)
  | GetAttribLocation _ name => λ s, (location (attribs s) name, s)
  | AttachShader _ _ | BindBuffer _ _ | BufferData _ _ _ | DeleteBuffer _
  | VertexAttribPointer _ _ _ _ _ _ | EnableVertexAttribArray _
  | Viewport _ _ _ _ | ClearColor _ _ _ _ | Clear _ | UseProgram _
  | DrawArrays _ _ _ => λ s, (tt, s)
  end.

#[global] Instance context : WebGLRenderingContext state :=
  {| respond := react;
     canvas p s := match p with width => (dims s).1 | height => (dims s).2 end |}.

(** A driver that rejects exactly the sources starting with ["!"]. *)
Definition picky (src : string) : option string :=
  if String.prefix "!" src then Some "ERROR: 0:1: '!' : syntax error"
  else None.

(** A new context on a 300 by 150 canvas whose program declares the
    attribute [a_position] at location 0. *)
Definition new (links validates : bool) : state :=
  State picky links validates [("a_position", 0%float)] (300%float, 150%float)
    1%N ∅ ∅.

(** A document with the two script tags, of the given texts. *)
Definition page (scripts : list (string * string)) : Document :=
  λ selector,
    (λ e, {| textContent := e.2 |}) <$>
      find (λ e, String.eqb ("#" +:+ e.1) selector) scripts.

(** The inputs of the end-to-end example: a quad, its one attribute
    and the two script tags. *)
Definition quad : list float := [-1; -1; 1; -1; -1; 1; 1; 1]%float.

Definition position : AttributeObject :=
  createAttribute "a_position" 2 2 FLOAT None None None.

Definition scripts : Document :=
  page [ ("vertexShader", "attribute vec4 a_position; void main() {}");
         ("fragmentShader", "void main() {}") ].

(** A page whose vertex shader does not compile and whose fragment
    shader is missing. *)
Definition broken : Document :=
  page [ ("vertexShader", "!attribute vec4 a_position;") ].

(** A page without the fragment shader. *)
Definition half : Document :=
  page [ ("vertexShader", "attribute vec4 a_position; void main() {}") ].

(** An attribute that the program of the mock does not declare. *)
Definition missing : AttributeObject :=
  createAttribute "a_missing" 3 5 FLOAT (Some 2%float) None None.

(** Compiles a vertex shader and asks for its log, deleting nothing:
    what the driver has to say about a source. *)
Definition diagnostics (shaderSource : string) : prog (option string) :=
  newShader ← call (CreateShader (VERTEX_SHADER webgl));
  _ ← call (ShaderSource newShader shaderSource);
  _ ← call (CompileShader newShader);
  call (GetShaderInfoLog newShader).

(** A colour object with the property names of the [ColorObject]
    typedef. *)
Definition red : gmap string value :=
  {[ "red" := VNum 1; "green" := VNum 0; "blue" := VNum 0;
     "alpha" := VNum 1 ]}.

End Mock.

(** ** A second context that behaves like the mock

    The mock with a counter of the calls it has answered: another state
    space, the same answers. *)
Module Counting.

Definition state : Type := Mock.state * nat.

#[global] Instance context : WebGLRenderingContext state :=
  {| respond c s := let r := Mock.react c s.1 in (r.1, (r.2, S s.2));
     canvas p s := canvas p s.1 |}.

Definition new (links validates : bool) : state :=
  (Mock.new links validates, 0).

Definition same (s : Mock.state) (s' : state) : Prop := s = s'.1.

End Counting.

(** ** Further inputs and readings of a log *)

(** A page whose fragment shader does not compile. *)
Definition bad_fragment : Document :=
  Mock.page [ ("vertexShader", "attribute vec4 a_position; void main() {}");
              ("fragmentShader", "!void main() {}") ].

(** The calls that allocate an object of the context. *)
Definition creating (c : glCall) : bool :=
  match c with
  | CreateShader _ | CreateProgram | CreateBuffer => true
  | _ => false
  end.

(** The calls on shaders and programs: those that building a program
    takes. *)
Definition building (c : glCall) : bool :=
  match c with
  | CreateShader _ | ShaderSource _ _ | CompileShader _
  | GetShaderParameter _ _ | GetShaderInfoLog _ | DeleteShader _
  | CreateProgram | AttachShader _ _ | LinkProgram _ | ValidateProgram _
  | GetProgramParameter _ _ | GetProgramInfoLog _ => true
  | _ => false
  end.

(** ** Contexts that behave alike

    [R] relates the states of two contexts from which every call gets the
    same answer and leaves related states, and the canvas reads the
    same. *)
Definition alike {Σ Σ' : Type} `{!WebGLRenderingContext Σ}
    `{!WebGLRenderingContext Σ'} (R : Σ → Σ' → Prop) : Prop :=
  ∀ s s', R s s' →
    (∀ c, (respond c s).1 = (respond c s').1
          ∧ R (respond c s).2 (respond c s').2)
    ∧ (∀ p, canvas p s = canvas p s').

(** ** Reading a log *)

Definition releasing (c : glCall) : bool :=
  match c with
  | DeleteShader _ | DeleteProgram _ | DeleteBuffer _ => true
  | _ => false
  end.

Definition validating (c : glCall) : bool :=
  match c with
  | ValidateProgram _ => true
  | _ => false
  end.

Definition pointing (c : glCall) : bool :=
  match c with
  | VertexAttribPointer _ _ _ _ _ _ => true
  | _ => false
  end.

Definition enabling (c : glCall) : bool :=
  match c with
  | EnableVertexAttribArray _ => true
  | _ => false
  end.

(** The calls that draw a frame, as opposed to those that build the
    program and the buffer. *)
Definition drawing (c : glCall) : bool :=
  match c with
  | Viewport _ _ _ _ | ClearColor _ _ _ _ | Clear _ | UseProgram _
  | DrawArrays _ _ _ => true
  | _ => false
  end.

(** The locations the context answered, in order. *)
Definition locations (l : list interaction) : list float :=
  omap (λ i,
    match i with
    | GetAttribLocation _ _ ↦ location => Some location
    | _ => None
    end) l.

(** A run followed by another, from the value and the state the first
    one leaves. *)
Definition followed {A B Σ : Type} (r : ran A Σ) (f : A → Σ → ran B Σ)
  : ran B Σ :=
  match outcome r with
  | Normal a =>
      let r' := f a (final r) in
      Ran (outcome r') (final r') (log r ++ log r')
  | Thrown e => Ran (Thrown e) (final r) (log r)
  end.

(** [makes P p]: every call the program [p] can make, whatever the
    context answers, satisfies [P]. *)
Fixpoint makes {A : Type} (P : glCall → Prop) (p : prog A) : Prop :=
  match p with
  | Ret _ | Throw _ => True
  | Call c k => P c ∧ ∀ r, makes P (k r)
  | ReadCanvas _ k => ∀ r, makes P (k r)
  end.

(** The four interactions of a compilation, with the answers [shader] and
    [status]. *)
Definition compiling (gl : WebGLConstants) (shaderSource : string)
    (shaderType : float) (shader status : value) : list interaction :=
  [ CreateShader shaderType ↦ shader;
    ShaderSource shader shaderSource ↦ ();
    CompileShader shader ↦ ();
    GetShaderParameter shader (COMPILE_STATUS gl) ↦ status ].

(** The word for the shader type in the message of [makeShader]. *)
Definition kind (gl : WebGLConstants) (shaderType : float) : string :=
  if PrimFloat.eqb shaderType (VERTEX_SHADER gl) then "vertex" else "fragment".

(** The five interactions of a link, with the answers [program] and
    [status]. *)
Definition linking (gl : WebGLConstants)
    (vertexShader fragmentShader program status : value) : list interaction :=
  [ CreateProgram ↦ program;
    AttachShader program vertexShader ↦ ();
    AttachShader program fragmentShader ↦ ();
    LinkProgram program ↦ ();
    GetProgramParameter program (LINK_STATUS gl) ↦ status ].

(** A run that released one thing: a shader, right after the context
    answered a falsy compile status for it, to end with the compile
    error. *)
Definition released_once {A Σ : Type} (gl : WebGLConstants) (r : ran A Σ)
  : Prop :=
  ∃ before shader shaderType status infoLog,
    truthy status = false
    ∧ List.filter releasing (calls before) = []
    ∧ log r = before
              ++ [ GetShaderParameter shader (COMPILE_STATUS gl) ↦ status;
                   DeleteShader shader ↦ ();
                   GetShaderInfoLog shader ↦ infoLog ]
    ∧ outcome r = Thrown (Error ("ERROR compiling " +:+ kind gl shaderType
                                 +:+ " shader: " +:+ ToString infoLog)).

(** A run that released nothing, or one shader as above. *)
Definition tidy {A Σ : Type} (gl : WebGLConstants) (r : ran A Σ) : Prop :=
  List.filter releasing (calls (log r)) = [] ∨ released_once gl r.

(** The three interactions that set one attribute up, at the location the
    context answered. *)
Definition setup (program : value) (attr : AttributeObject) (location : float)
  : list interaction :=
  [ GetAttribLocation program (name attr) ↦ location;
    VertexAttribPointer location (size attr) (type attr) (normalized attr)
      (stride attr) (offset attr) ↦ ();
    EnableVertexAttribArray location ↦ () ].

Definition pointer (attr : AttributeObject) (location : float) : glCall :=
  VertexAttribPointer location (size attr) (type attr) (normalized attr)
    (stride attr) (offset attr).

(** ** Lists of interactions *)

Lemma calls_app (l l' : list interaction) : calls (l ++ l') = calls l ++ calls l'.
Proof. apply fmap_app. Qed.

Lemma lookup_after_three {A : Type} (a b c : A) (l : list A) (j : nat) :
  ([a; b; c] ++ l) !! (3 + j) = l !! j.
Proof. done. Qed.

Section Setups.

Variable program : value.

Lemma pointing_setups (attributes : list AttributeObject) (ls : list float) :
  List.filter pointing (calls (mjoin (zip_with (setup program) attributes ls)))
  = zip_with pointer attributes ls.
Proof.
  revert ls. induction attributes as [|attr attributes IH]; intros [|l ls];
    try done.
  cbn. f_equal. apply IH.
Qed.

Lemma enabling_setups (attributes : list AttributeObject) (ls : list float) :
  length ls = length attributes →
  List.filter enabling (calls (mjoin (zip_with (setup program) attributes ls)))
  = EnableVertexAttribArray <$> ls.
Proof.
  revert ls. induction attributes as [|attr attributes IH]; intros [|l ls] Hlen;
    try done.
  cbn. f_equal. apply IH. by injection Hlen.
Qed.

Lemma lookup_setups (attributes : list AttributeObject) (ls : list float)
    (i k : nat) (attr : AttributeObject) (l : float) :
  attributes !! i = Some attr → ls !! i = Some l → k < 3 →
  mjoin (zip_with (setup program) attributes ls) !! (3 * i + k)
  = setup program attr l !! k.
Proof.
  revert ls i. induction attributes as [|a attributes IH]; intros [|l' ls] i;
    try done.
  destruct i as [|i]; cbn [lookup list_lookup zip_with mjoin list_join].
  - intros [= ->] [= ->] Hk.
    by destruct k as [|[|[|k]]]; [| | |lia].
  - intros Hattr Hl Hk.
    replace (3 * S i + k) with (S (S (S (3 * i + k)))) by lia.
    cbn. by apply IH.
Qed.

End Setups.

(** ** The calls a helper can make *)

Lemma makes_bind {A B : Type} (P : glCall → Prop) (m : prog A) (f : A → prog B) :
  makes P m → (∀ a, makes P (f a)) → makes P (m ≫= f).
Proof.
  intros Hm Hf. induction m as [a|e|c k IH|p k IH]; cbn; [done|done| |].
  - destruct Hm as [Hc Hk]. split; [done|]. intros r. by apply IH.
  - intros r. by apply IH.
Qed.

Lemma makes_forEach {A : Type} (P : glCall → Prop) (l : list A)
    (f : A → prog unit) :
  (∀ a, makes P (f a)) → makes P (forEach l f).
Proof.
  intros Hf. induction l as [|a l IH]; [done|].
  apply makes_bind; [done|]. by intros _.
Qed.

Lemma filter_none {A : Type} (f : A → bool) (l : list A) :
  Forall (λ a, f a = false) l → List.filter f l = [].
Proof. induction 1 as [|a l Ha _ IH]; [done|]. cbn. by rewrite Ha. Qed.

(** Unfolds a straight-line helper and checks each of its calls. *)
Ltac each_call :=
  repeat first [ split | intro | case_match | progress cbn ].

Lemma makeShader_makes (P : glCall → Prop) (gl : WebGLConstants)
    (shaderSource : string) (shaderType : float) :
  (∀ c, releasing c = false → drawing c = false → P c) →
  (∀ shader, P (DeleteShader shader)) →
  makes P (makeShader gl shaderSource shaderType).
Proof.
  intros HP HD. unfold makeShader.
  each_call; first [apply HD|apply HP; reflexivity].
Qed.

Lemma makeProgram_makes (P : glCall → Prop) (gl : WebGLConstants)
    (vertexShader fragmentShader : value) (validate : option bool) :
  (∀ c, releasing c = false → drawing c = false → P c) →
  makes P (makeProgram gl vertexShader fragmentShader validate).
Proof. intros HP. unfold makeProgram. each_call; apply HP; reflexivity. Qed.

Lemma makeProgramFromScripts_makes (P : glCall → Prop) (gl : WebGLConstants)
    (document : Document) (shaderIds : list string) :
  (∀ c, releasing c = false → drawing c = false → P c) →
  (∀ shader, P (DeleteShader shader)) →
  makes P (makeProgramFromScripts gl document shaderIds).
Proof.
  intros HP HD. unfold makeProgramFromScripts.
  assert (Hscript : ∀ selector, makes P (scriptText document selector)).
  { intros selector. unfold scriptText. case_match; exact I. }
  apply makes_bind; [apply Hscript|intros vertexSource].
  apply makes_bind; [by apply makeShader_makes|intros vertexShader].
  apply makes_bind; [apply Hscript|intros fragmentSource].
  apply makes_bind; [by apply makeShader_makes|intros fragmentShader].
  by apply makeProgram_makes.
Qed.

Lemma createBuffer_makes (P : glCall → Prop) (gl : WebGLConstants)
    (program : value) (bufferData : option (list float))
    (attributes : list AttributeObject) (type' bufferDataType : option float) :
  (∀ c, releasing c = false → drawing c = false → P c) →
  makes P (createBuffer gl program bufferData attributes type' bufferDataType).
Proof.
  intros HP. unfold createBuffer. cbn.
  do 3 (split; [apply HP; reflexivity|intros ?]).
  apply makes_forEach. intros attr. unfold configure.
  each_call; apply HP; reflexivity.
Qed.

(** ** Runs of the helpers, over any context *)

(** Names the answer and the next state of the first pending call. *)
Ltac answer :=
  match goal with
  | |- context [respond ?c ?s] =>
      is_var s;
      let r := fresh "r" in
      let s' := fresh "s" in
      destruct (respond c s) as [r s'] eqn:?; cbn [fst snd] in *;
      let T := type of r in
      let T := eval cbn in T in
      lazymatch T with unit => destruct r | _ => idtac end
  end.

Section Runs.

Context {Σ : Type} `{!WebGLRenderingContext Σ}.
Variable gl : WebGLConstants.

Lemma run_bind {A B : Type} (m : prog A) (f : A → prog B) (s : Σ) :
  run (m ≫= f) s = followed (run m s) (λ a s', run (f a) s').
Proof.
  revert s. induction m as [a|e|c k IH|p k IH]; intros s.
  - unfold followed. cbn. by destruct (run (f a) s).
  - done.
  - change (run (Call c k ≫= f) s)
      with (logged (c ↦ (respond c s).1)
              (run (k (respond c s).1 ≫= f) (respond c s).2)).
    rewrite IH. cbn. unfold followed, logged. cbn.
    by destruct (outcome (run (k (respond c s).1) (respond c s).2)).
  - change (run (ReadCanvas p k ≫= f) s) with (run (k (canvas p s) ≫= f) s).
    by rewrite IH.
Qed.

Lemma run_makes {A : Type} (P : glCall → Prop) (p : prog A) (s : Σ) :
  makes P p → Forall P (calls (log (run p s))).
Proof.
  revert s. induction p as [a|e|c k IH|q k IH]; intros s Hp; cbn.
  - constructor.
  - constructor.
  - destruct Hp as [Hc Hk]. constructor; [done|]. by apply IH.
  - by apply IH.
Qed.

Lemma makeShader_runs (shaderSource : string) (shaderType : float) (s : Σ) :
  let r := run (makeShader gl shaderSource shaderType) s in
  ∃ shader status,
    (truthy status = true ∧ outcome r = Normal shader
     ∧ log r = compiling gl shaderSource shaderType shader status)
    ∨ (truthy status = false
       ∧ ∃ infoLog,
           outcome r = Thrown (Error ("ERROR compiling " +:+ kind gl shaderType
                                      +:+ " shader: " +:+ ToString infoLog))
           ∧ log r = compiling gl shaderSource shaderType shader status
                     ++ [ DeleteShader shader ↦ ();
                          GetShaderInfoLog shader ↦ infoLog ]).
Proof.
  intros r. subst r. unfold makeShader, compiling, kind. cbn.
  do 4 answer. exists r, r0.
  destruct (truthy r0) eqn:Hstatus; cbn.
  - by left.
  - right. split; [done|]. do 2 answer. by exists r1.
Qed.

Lemma makeProgram_runs (vertexShader fragmentShader : value)
    (validate : option bool) (s : Σ) :
  let r := run (makeProgram gl vertexShader fragmentShader validate) s in
  ∃ program linked,
    let l := linking gl vertexShader fragmentShader program linked in
    (truthy linked = false
     ∧ ∃ infoLog,
         outcome r = Thrown (Error ("ERROR linking program: "
                                    +:+ ToString infoLog))
         ∧ log r = l ++ [GetProgramInfoLog program ↦ infoLog])
    ∨ (truthy linked = true ∧ default true validate = false
       ∧ outcome r = Normal program ∧ log r = l)
    ∨ (truthy linked = true ∧ default true validate = true
       ∧ ∃ valid,
           let l := l ++ [ ValidateProgram program ↦ ();
                           GetProgramParameter program (VALIDATE_STATUS gl)
                             ↦ valid ] in
           (truthy valid = true ∧ outcome r = Normal program ∧ log r = l)
           ∨ (truthy valid = false
              ∧ ∃ infoLog,
                  outcome r = Thrown (Error ("ERROR validating program: "
                                             +:+ ToString infoLog))
                  ∧ log r = l ++ [GetProgramInfoLog program ↦ infoLog])).
Proof.
  intros r. subst r. unfold makeProgram, linking. cbn.
  do 5 answer. exists r, r0.
  destruct (truthy r0) eqn:Hlinked; cbn.
  - right. destruct (default true validate) eqn:Hvalidate; cbn.
    + right. do 2 (split; [done|]). do 2 answer. exists r1.
      destruct (truthy r1) eqn:Hvalid; cbn.
      * by left.
      * right. split; [done|]. answer. by exists r2.
    + by left.
  - left. split; [done|]. answer. by exists r1.
Qed.

Lemma clearCanvas_runs (color : gmap string value) (s : Σ) :
  let r := run (clearCanvas gl color) s in
  outcome r = Normal ()
  ∧ log r = [ ClearColor (get color "r") (get color "g") (get color "b")
                (get color "a") ↦ ();
              Clear (COLOR_BUFFER_BIT gl) ↦ () ].
Proof.
  intros r. subst r. unfold clearCanvas. cbn. do 2 answer. done.
Qed.

Lemma forEach_configure_runs (program : value)
    (attributes : list AttributeObject) (s : Σ) :
  let r := run (forEach attributes (configure program)) s in
  outcome r = Normal ()
  ∧ length (locations (log r)) = length attributes
  ∧ log r = mjoin (zip_with (setup program) attributes (locations (log r))).
Proof.
  revert s. induction attributes as [|attr attributes IH]; intros s; [done|].
  cbn. do 3 answer.
  destruct (IH s2) as (Hout & Hlen & Hlog).
  split; [done|]. split; [exact (f_equal S Hlen)|].
  do 3 f_equal. exact Hlog.
Qed.

Lemma createBuffer_runs (program : value) (bufferData : option (list float))
    (attributes : list AttributeObject) (type' bufferDataType : option float)
    (s : Σ) :
  let r := run (createBuffer gl program bufferData attributes type'
                  bufferDataType) s in
  let target := default (ARRAY_BUFFER gl) type' in
  let usage := default (STATIC_DRAW gl) bufferDataType in
  outcome r = Normal ()
  ∧ length (locations (log r)) = length attributes
  ∧ ∃ buffer,
      log r = [ CreateBuffer ↦ buffer;
                BindBuffer target buffer ↦ ();
                BufferData target bufferData usage ↦ () ]
              ++ mjoin (zip_with (setup program) attributes
                          (locations (log r))).
Proof.
  cbn zeta. unfold createBuffer. cbn. do 3 answer.
  destruct (forEach_configure_runs program attributes s2)
    as (Hout & Hlen & Hlog).
  split; [done|]. split; [exact Hlen|]. exists r.
  do 3 f_equal. exact Hlog.
Qed.

Lemma followed_normal {A B : Type} (r : ran A Σ) (f : A → Σ → ran B Σ) (a : A) :
  outcome r = Normal a →
  followed r f
  = Ran (outcome (f a (final r))) (final (f a (final r)))
      (log r ++ log (f a (final r))).
Proof. unfold followed. by intros ->. Qed.

Lemma followed_thrown {A B : Type} (r : ran A Σ) (f : A → Σ → ran B Σ)
    (e : JsError) :
  outcome r = Thrown e → followed r f = Ran (Thrown e) (final r) (log r).
Proof. unfold followed. by intros ->. Qed.

Lemma scriptText_runs {A : Type} (document : Document) (selector : string)
    (k : string → prog A) (s : Σ) :
  run (scriptText document selector ≫= k) s
  = match document selector with
    | Some element => run (k (textContent element)) s
    | None => Ran (Thrown TypeError) s []
    end.
Proof. unfold scriptText. by destruct (document selector). Qed.

Lemma makeProgramFromScripts_runs (document : Document)
    (shaderIds : list string) (s : Σ) :
  run (makeProgramFromScripts gl document shaderIds) s
  = match document ("#" +:+ idAt shaderIds 0) with
    | None => Ran (Thrown TypeError) s []
    | Some v =>
        followed (run (makeShader gl (textContent v) (VERTEX_SHADER gl)) s)
          (λ vertexShader s,
             match document ("#" +:+ idAt shaderIds 1) with
             | None => Ran (Thrown TypeError) s []
             | Some f =>
                 followed
                   (run (makeShader gl (textContent f) (FRAGMENT_SHADER gl)) s)
                   (λ fragmentShader s,
                      run (makeProgram gl vertexShader fragmentShader None) s)
             end)
    end.
Proof.
  unfold makeProgramFromScripts. rewrite scriptText_runs.
  destruct (document ("#" +:+ idAt shaderIds 0)) as [v|]; [|done].
  rewrite run_bind.
  destruct (outcome (run (makeShader gl (textContent v) (VERTEX_SHADER gl)) s))
    as [vertexShader|e] eqn:Hvertex.
  - rewrite !(followed_normal _ _ _ Hvertex), scriptText_runs.
    destruct (document ("#" +:+ idAt shaderIds 1)) as [f|]; [|done].
    by rewrite run_bind.
  - by rewrite !(followed_thrown _ _ _ Hvertex).
Qed.

Lemma tidy_makes {A : Type} (p : prog A) (s : Σ) :
  makes (λ c, releasing c = false) p → tidy gl (run p s).
Proof. intros Hp. left. by apply filter_none, run_makes. Qed.

Lemma tidy_followed {A B : Type} (r : ran A Σ) (f : A → Σ → ran B Σ) :
  tidy gl r → (∀ a s, tidy gl (f a s)) → tidy gl (followed r f).
Proof.
  intros Hr Hf. destruct (outcome r) as [a|e] eqn:Hout.
  - rewrite (followed_normal _ _ _ Hout).
    destruct Hr as [Hr|(? & ? & ? & ? & ? & _ & _ & _ & Hthrown)];
      [|congruence].
    destruct (Hf a (final r))
      as [Hnone|(before & shader & shaderType & status & infoLog
                 & Hstatus & Hbefore & Hlog & Hthrown)].
    + left. cbn. by rewrite calls_app, List.filter_app, Hr, Hnone.
    + right. exists (log r ++ before), shader, shaderType, status, infoLog.
      cbn. rewrite calls_app, List.filter_app, Hr, Hbefore, Hlog.
      by rewrite (assoc_L (++)).
  - rewrite (followed_thrown _ _ _ Hout).
    destruct Hr as [Hr|(before & shader & shaderType & status & infoLog
                        & Hstatus & Hbefore & Hlog & Hthrown)];
      [by left|].
    right. exists before, shader, shaderType, status, infoLog.
    split_and!; [exact Hstatus|exact Hbefore|exact Hlog|cbn; congruence].
Qed.

Lemma tidy_makeShader (shaderSource : string) (shaderType : float) (s : Σ) :
  tidy gl (run (makeShader gl shaderSource shaderType) s).
Proof.
  destruct (makeShader_runs shaderSource shaderType s)
    as (shader & status & [(_ & _ & Hlog)|(Hstatus & infoLog & Hout & Hlog)]).
  - left. by rewrite Hlog.
  - right.
    exists [ CreateShader shaderType ↦ shader;
             ShaderSource shader shaderSource ↦ ();
             CompileShader shader ↦ () ],
      shader, shaderType, status, infoLog.
    by rewrite Hlog.
Qed.

Lemma tidy_makeProgramFromScripts (document : Document)
    (shaderIds : list string) (s : Σ) :
  tidy gl (run (makeProgramFromScripts gl document shaderIds) s).
Proof.
  rewrite makeProgramFromScripts_runs.
  destruct (document ("#" +:+ idAt shaderIds 0)) as [v|]; [|by left].
  apply tidy_followed; [apply tidy_makeShader|]. intros vertexShader s1.
  destruct (document ("#" +:+ idAt shaderIds 1)) as [f|]; [|by left].
  apply tidy_followed; [apply tidy_makeShader|]. intros fragmentShader s2.
  apply tidy_makes, makeProgram_makes. done.
Qed.

End Runs.

Section Alike.

Context {Σ Σ' : Type} `{!WebGLRenderingContext Σ} `{!WebGLRenderingContext Σ'}.
Variable R : Σ → Σ' → Prop.
Hypothesis HR : alike R.

Lemma run_alike {A : Type} (p : prog A) (s : Σ) (s' : Σ') :
  R s s' →
  outcome (run p s) = outcome (run p s')
  ∧ log (run p s) = log (run p s')
  ∧ R (final (run p s)) (final (run p s')).
Proof.
  revert s s'. induction p as [a|e|c k IH|q k IH]; intros s s' Hs; try done.
  - destruct (HR s s' Hs) as [Hc _]. destruct (Hc c) as [Hanswer Hnext].
    cbn. rewrite <-Hanswer.
    destruct (IH (respond c s).1 _ _ Hnext) as (-> & -> & Hfinal).
    done.
  - destruct (HR s s' Hs) as [_ Hcanvas]. cbn. rewrite <-Hcanvas.
    by apply IH.
Qed.

End Alike.

(** A context behaves like itself. *)
Lemma alike_eq {Σ : Type} `{!WebGLRenderingContext Σ} : alike (@eq Σ).
Proof. by intros s _ <-. Qed.

Lemma counting_alike : alike Counting.same.
Proof.
  intros s [s' n] ->. split; [|done]. intros c. done.
Qed.

(** * The properties *)

(** C2. [createAttribute] returns a descriptor whose [stride] is
    [numVertex * typeSize] and whose [offset] is [offset * typeSize], the
    size of an element being 4 bytes and the offset 0 when left out; the
    other fields are the arguments.  So [createAttribute("pos", 3, 6,
    FLOAT)] is [{name: "pos", size: 3, stride: 24, offset: 0, type: FLOAT,
    normalized: false}], and [createAttribute("uv", 2, 6, FLOAT, 3)] has
    [offset] 12. *)
Theorem createAttribute_layout :
  (∀ (name' : string) (numElements numVertex type' : float)
     (offset' typeSize : option float) (normalized' : option bool),
     let attr := createAttribute name' numElements numVertex type' offset'
                   typeSize normalized' in
     stride attr = (numVertex * default 4 typeSize)%float
     ∧ offset attr = (default 0 offset' * default 4 typeSize)%float
     ∧ name attr = name' ∧ size attr = numElements ∧ type attr = type'
     ∧ normalized attr = default false normalized')
  ∧ (∀ FLOAT : float,
       createAttribute "pos" 3 6 FLOAT None None None
       = {| name := "pos"; size := 3; stride := 24; offset := 0;
            type := FLOAT; normalized := false |}
       ∧ offset (createAttribute "uv" 2 6 FLOAT (Some 3%float) None None)
         = 12%float).
Proof. split; [by intros|]. intros FLOAT. split; reflexivity. Qed.

(** C7, at a colour object with the property names of the [ColorObject]
    typedef: [clearCanvas] reads [r], [g], [b] and [a], finds none of
    them, and passes four times [undefined] to [clearColor]. *)
Theorem clearCanvas_misses_documented_names
    {Σ : Type} `{!WebGLRenderingContext Σ} (gl : WebGLConstants) (s : Σ) :
  calls (log (run (clearCanvas gl Mock.red) s))
  = [ ClearColor VUndefined VUndefined VUndefined VUndefined;
      Clear (COLOR_BUFFER_BIT gl) ].
Proof.
  destruct (clearCanvas_runs gl Mock.red s) as [_ ->]. reflexivity.
Qed.

(** With the property names [clearCanvas] reads, the four components
    reach [clearColor], and nothing but the clear follows. *)
Lemma clearCanvas_rgba {Σ : Type} `{!WebGLRenderingContext Σ}
    (gl : WebGLConstants) (r g b a : float) (s : Σ) :
  let ran := run (clearCanvas gl (rgba r g b a)) s in
  outcome ran = Normal ()
  ∧ calls (log ran)
    = [ ClearColor (VNum r) (VNum g) (VNum b) (VNum a);
        Clear (COLOR_BUFFER_BIT gl) ].
Proof.
  destruct (clearCanvas_runs gl (rgba r g b a) s) as [Hout Hlog].
  cbn zeta. rewrite Hlog. split; [done|]. reflexivity.
Qed.

(** C5. With [validate = false], [makeProgram] makes no validation call
    and no query of the validation status, whatever the context would
    have answered to them: its calls are those of the link, followed by
    the read of the log when the link status is falsy; and when the link
    status is truthy it returns the program. *)
Theorem makeProgram_skips_validation
    {Σ : Type} `{!WebGLRenderingContext Σ} (gl : WebGLConstants)
    (vertexShader fragmentShader : value) (s : Σ) :
  let r := run (makeProgram gl vertexShader fragmentShader (Some false)) s in
  List.filter validating (calls (log r)) = []
  ∧ ∃ program linked,
      let l := linking gl vertexShader fragmentShader program linked in
      if truthy linked
      then outcome r = Normal program ∧ log r = l
      else ∃ infoLog,
             outcome r = Thrown (Error ("ERROR linking program: "
                                        +:+ ToString infoLog))
             ∧ log r = l ++ [GetProgramInfoLog program ↦ infoLog].
Proof.
  intros r.
  destruct (makeProgram_runs gl vertexShader fragmentShader (Some false) s)
    as (program & linked & [(Hlinked & infoLog & Hout & Hlog)
                           |[(Hlinked & _ & Hout & Hlog)|(_ & [=] & _)]]);
    fold r in Hout, Hlog; (split; [by rewrite Hlog|]);
    exists program, linked; rewrite Hlinked; eauto.
Qed.

(** At a mock whose validation fails: the program is returned when the
    validation is switched off, and the validation error is thrown when
    it is left on. *)
Example makeProgram_validation_off_and_on :
  let s := Mock.new true false in
  outcome (run (makeProgram Mock.webgl (VObj 7) (VObj 8) (Some false)) s)
  = Normal (VObj 1)
  ∧ outcome (run (makeProgram Mock.webgl (VObj 7) (VObj 8) None) s)
    = Thrown (Error "ERROR validating program: validation failed").
Proof. vm_compute. done. Qed.

(** C3. For a list of N attribute descriptors, [createBuffer] asks for N
    locations, and after the three calls that create, bind and fill the
    buffer its calls are, descriptor by descriptor in the order of the
    list: the query of the location of the descriptor's [name], the
    pointer call at the location answered with the descriptor's [size],
    [type], [normalized], [stride] and [offset], and the enabling of that
    location.  So there are exactly N pointer calls and N enabling calls,
    in the order of the list. *)
Theorem createBuffer_configures_each_attribute
    {Σ : Type} `{!WebGLRenderingContext Σ} (gl : WebGLConstants)
    (program : value) (bufferData : option (list float))
    (attributes : list AttributeObject) (type' bufferDataType : option float)
    (s : Σ) :
  let r := run (createBuffer gl program bufferData attributes type'
                  bufferDataType) s in
  let found := locations (log r) in
  length found = length attributes
  ∧ drop 3 (log r) = mjoin (zip_with (setup program) attributes found)
  ∧ List.filter pointing (calls (log r)) = zip_with pointer attributes found
  ∧ List.filter enabling (calls (log r)) = EnableVertexAttribArray <$> found
  ∧ length (List.filter pointing (calls (log r))) = length attributes
  ∧ length (List.filter enabling (calls (log r))) = length attributes.
Proof.
  intros r found.
  destruct (createBuffer_runs gl program bufferData attributes type'
              bufferDataType s) as (_ & Hlen & buffer & Hlog).
  fold r in Hlen, Hlog. fold found in Hlen, Hlog. clearbody found.
  assert (Hpointing : List.filter pointing (calls (log r))
                      = zip_with pointer attributes found).
  { rewrite Hlog, calls_app. cbn. apply pointing_setups. }
  assert (Henabling : List.filter enabling (calls (log r))
                      = EnableVertexAttribArray <$> found).
  { rewrite Hlog, calls_app. cbn. by apply enabling_setups. }
  split; [done|]. split; [by rewrite Hlog|]. do 2 (split; [done|]).
  rewrite Hpointing, Henabling, length_zip_with, length_fmap. lia.
Qed.

(** C10. [createBuffer] always returns normally, and for the descriptor
    at any index [i] of the list it asks the context for the location of
    the descriptor's [name] and passes the answer, whatever it is (the
    sentinel [-1] of an unknown name included), to the pointer call and to
    the enabling call that follow at once. *)
Theorem createBuffer_passes_location_through
    {Σ : Type} `{!WebGLRenderingContext Σ} (gl : WebGLConstants)
    (program : value) (bufferData : option (list float))
    (attributes : list AttributeObject) (type' bufferDataType : option float)
    (s : Σ) (i : nat) (attr : AttributeObject) :
  let r := run (createBuffer gl program bufferData attributes type'
                  bufferDataType) s in
  attributes !! i = Some attr →
  outcome r = Normal ()
  ∧ ∃ location,
      log r !! (3 + 3 * i)
      = Some (GetAttribLocation program (name attr) ↦ location)
      ∧ calls (log r) !! (3 + 3 * i + 1) = Some (pointer attr location)
      ∧ calls (log r) !! (3 + 3 * i + 2)
        = Some (EnableVertexAttribArray location).
Proof.
  intros r Hattr.
  destruct (createBuffer_runs gl program bufferData attributes type'
              bufferDataType s) as (Hout & Hlen & buffer & Hlog).
  fold r in Hout, Hlen, Hlog. split; [done|].
  remember (locations (log r)) as found eqn:Hfound. clear Hfound.
  destruct (lookup_lt_is_Some_2 found i) as [location Hlocation].
  { rewrite Hlen. by eapply lookup_lt_Some. }
  exists location. unfold calls. rewrite !list_lookup_fmap, Hlog.
  replace (3 + 3 * i) with (3 + (3 * i + 0)) by lia.
  rewrite <-!Nat.add_assoc, !lookup_after_three.
  by rewrite !(lookup_setups program attributes found i _ attr location)
    by (done || lia).
Qed.

(** C10 at the mock, with a second attribute that its program does not
    declare. *)
Lemma createBuffer_passes_location_through_witness :
  let r := run (createBuffer Mock.webgl (VObj 3) (Some Mock.quad)
                  [Mock.position; Mock.missing] None None)
             (Mock.new true true) in
  outcome r = Normal ()
  ∧ ∃ location,
      log r !! 6 = Some (GetAttribLocation (VObj 3) "a_missing" ↦ location)
      ∧ calls (log r) !! 7 = Some (pointer Mock.missing location)
      ∧ calls (log r) !! 8 = Some (EnableVertexAttribArray location).
Proof.
  apply (createBuffer_passes_location_through Mock.webgl (VObj 3)
           (Some Mock.quad) [Mock.position; Mock.missing] None None
           (Mock.new true true) 1 Mock.missing).
  reflexivity.
Defined.

(** The calls of that run: the sentinel [-1] reaches both the pointer call
    and the enabling call. *)
Example createBuffer_sentinel :
  calls (log (run (createBuffer Mock.webgl (VObj 3) (Some Mock.quad)
                     [Mock.position; Mock.missing] None None)
                (Mock.new true true)))
  = [ CreateBuffer; BindBuffer 0x8892 (VObj 1);
      BufferData 0x8892 (Some Mock.quad) 0x88E4;
      GetAttribLocation (VObj 3) "a_position";
      VertexAttribPointer 0 2 0x1406 false 8 0;
      EnableVertexAttribArray 0;
      GetAttribLocation (VObj 3) "a_missing";
      VertexAttribPointer (-1) 3 0x1406 false 20 8;
      EnableVertexAttribArray (-1) ]%float.
Proof. vm_compute. reflexivity. Qed.

(** C4, at the mock and a vertex shader that does not compile: the driver
    has a diagnostic for the source, [makeShader] deletes the shader (none
    is left in the context) and only then asks for its log, so that the
    context answers [null] and the message carries the shader kind but not
    the diagnostic. *)
Theorem makeShader_reads_log_after_delete :
  let source := "!attribute vec4 a_position;" in
  let s := Mock.new true true in
  let r := run (makeShader Mock.webgl source (VERTEX_SHADER Mock.webgl)) s in
  outcome (run (Mock.diagnostics source) s)
  = Normal (Some "ERROR: 0:1: '!' : syntax error")
  ∧ log r
    = compiling Mock.webgl source (VERTEX_SHADER Mock.webgl) (VObj 1)
        (VBool false)
      ++ [ DeleteShader (VObj 1) ↦ (); GetShaderInfoLog (VObj 1) ↦ None ]
  ∧ Mock.shaders (final r) = ∅
  ∧ outcome r = Thrown (Error "ERROR compiling vertex shader: null").
Proof. vm_compute. done. Qed.

(** C8. [makeProgram] makes no releasing call in any run, so none when
    the link or the validation fails; and a run of [drawCanvas], which
    runs every helper of the module, releases nothing, or exactly one
    shader, right after the context answered a falsy compile status for
    it, to end with the compile error. *)
Theorem makeProgram_releases_nothing
    {Σ : Type} `{!WebGLRenderingContext Σ} (gl : WebGLConstants) :
  (∀ (vertexShader fragmentShader : value) (validate : option bool) (s : Σ),
     List.filter releasing
       (calls (log (run (makeProgram gl vertexShader fragmentShader validate)
                      s))) = [])
  ∧ (∀ (document : Document) (bufferData : option (list float))
       (attributes : option (list AttributeObject))
       (shaderIds : option (list string))
       (clearColor : option (gmap string value)) (s : Σ),
       tidy gl (run (drawCanvas gl document bufferData attributes shaderIds
                       clearColor) s)).
Proof.
  split.
  - intros vertexShader fragmentShader validate s.
    apply filter_none, run_makes, makeProgram_makes. done.
  - intros document bufferData attributes shaderIds clearColor s.
    unfold drawCanvas. cbn zeta. rewrite run_bind.
    apply tidy_followed; [apply tidy_makeProgramFromScripts|].
    intros program s1. apply tidy_makes.
    apply makes_bind; [by apply createBuffer_makes|]. intros _.
    each_call; reflexivity.
Qed.

(** At a mock whose link fails: the error is thrown after the read of the
    log, and the program stays in the context. *)
Example makeProgram_link_failure :
  let r := run (makeProgram Mock.webgl (VObj 7) (VObj 8) None)
             (Mock.new false true) in
  outcome r = Thrown (Error "ERROR linking program: link failed")
  ∧ calls (log r)
    = [ CreateProgram; AttachShader (VObj 1) (VObj 7);
        AttachShader (VObj 1) (VObj 8); LinkProgram (VObj 1);
        GetProgramParameter (VObj 1) 0x8B82; GetProgramInfoLog (VObj 1) ]
  ∧ Mock.programs (final r) !! 1%N = Some (Mock.Program false false).
Proof. vm_compute. done. Qed.

(** C6 as stated fails: with a vertex shader that does not compile and a
    fragment shader that is missing, the compile error is what
    [makeProgramFromScripts] throws. *)
Lemma missing_element_not_always_reported :
  ¬ (∀ (Σ : Type) (context : WebGLRenderingContext Σ) (gl : WebGLConstants)
       (document : Document) (shaderIds : list string) (s : Σ),
       document ("#" +:+ idAt shaderIds 0) = None
       ∨ document ("#" +:+ idAt shaderIds 1) = None →
       outcome (run (makeProgramFromScripts gl document shaderIds) s)
       = Thrown TypeError).
Proof.
  intros H.
  specialize (H Mock.state _ Mock.webgl Mock.broken
                ["vertexShader"; "fragmentShader"] (Mock.new true true)
                (or_intror eq_refl)).
  vm_compute in H. discriminate H.
Qed.

(** C6, amended.  [makeProgramFromScripts] looks the two elements up one
    after the other, each right before it compiles the text.  If the
    first identifier resolves to no element it throws the [TypeError] of
    the read on [null] before any call of the context.  If the vertex
    shader fails to compile, that error is thrown as it is, whether or not
    the second identifier resolves.  If the vertex shader compiles and the
    second identifier resolves to no element, it throws the [TypeError]
    after the calls of that compilation.  If both resolve, an error of
    the second compilation, and otherwise the outcome of [makeProgram]
    (the program, or the link or validation error), is the outcome as it
    is. *)
Theorem makeProgramFromScripts_failures
    {Σ : Type} `{!WebGLRenderingContext Σ} (gl : WebGLConstants)
    (document : Document) (shaderIds : list string) (s : Σ) :
  let vertexId := "#" +:+ idAt shaderIds 0 in
  let fragmentId := "#" +:+ idAt shaderIds 1 in
  let r := run (makeProgramFromScripts gl document shaderIds) s in
  (document vertexId = None → r = Ran (Thrown TypeError) s [])
  ∧ (∀ v, document vertexId = Some v →
       let r1 := run (makeShader gl (textContent v) (VERTEX_SHADER gl)) s in
       (∀ e, outcome r1 = Thrown e → r = Ran (Thrown e) (final r1) (log r1))
       ∧ (∀ vertexShader, outcome r1 = Normal vertexShader →
            (document fragmentId = None →
             r = Ran (Thrown TypeError) (final r1) (log r1))
            ∧ (∀ f, document fragmentId = Some f →
                 let r2 := run (makeShader gl (textContent f)
                                  (FRAGMENT_SHADER gl)) (final r1) in
                 (∀ e, outcome r2 = Thrown e →
                    outcome r = Thrown e ∧ log r = log r1 ++ log r2)
                 ∧ (∀ fragmentShader, outcome r2 = Normal fragmentShader →
                      let r3 := run (makeProgram gl vertexShader
                                       fragmentShader None) (final r2) in
                      outcome r = outcome r3
                      ∧ log r = log r1 ++ log r2 ++ log r3)))).
Proof.
  intros vertexId fragmentId r. subst r vertexId fragmentId.
  rewrite makeProgramFromScripts_runs. split; [by intros ->|].
  intros v -> r1. split.
  - intros e He. by rewrite (followed_thrown _ _ _ He).
  - intros vertexShader Hv. rewrite (followed_normal _ _ _ Hv). fold r1. split.
    + intros ->. cbn. by rewrite app_nil_r.
    + intros f -> r2. split.
      * intros e He. by rewrite (followed_thrown _ _ _ He).
      * intros fragmentShader Hf r3. by rewrite (followed_normal _ _ _ Hf).
Qed.

(** The three failures around a missing element, at the mock: no element
    at all; a vertex shader that does not compile and no fragment shader;
    a vertex shader that compiles and no fragment shader. *)
Lemma makeProgramFromScripts_failures_witness :
  let ids := ["vertexShader"; "fragmentShader"] in
  let s := Mock.new true true in
  run (makeProgramFromScripts Mock.webgl (Mock.page []) ids) s
  = Ran (Thrown TypeError) s []
  ∧ outcome (run (makeProgramFromScripts Mock.webgl Mock.broken ids) s)
    = Thrown (Error "ERROR compiling vertex shader: null")
  ∧ (outcome (run (makeProgramFromScripts Mock.webgl Mock.half ids) s)
     = Thrown TypeError
     ∧ calls (log (run (makeProgramFromScripts Mock.webgl Mock.half ids) s))
       = [ CreateShader 0x8B31;
           ShaderSource (VObj 1) "attribute vec4 a_position; void main() {}";
           CompileShader (VObj 1); GetShaderParameter (VObj 1) 0x8B81 ]).
Proof.
  intros ids s. split; [|split].
  - by apply (makeProgramFromScripts_failures Mock.webgl (Mock.page []) ids s).
  - destruct (makeProgramFromScripts_failures Mock.webgl Mock.broken ids s)
      as [_ H].
    destruct (H _ eq_refl) as [Hthrown _].
    rewrite (Hthrown _ eq_refl). reflexivity.
  - destruct (makeProgramFromScripts_failures Mock.webgl Mock.half ids s)
      as [_ H].
    destruct (H _ eq_refl) as [_ Hnormal].
    destruct (Hnormal _ eq_refl) as [Hmissing _].
    rewrite (Hmissing eq_refl). split; reflexivity.
Defined.

(** C1, at the mock and a clear colour with the property names of the
    [ColorObject] typedef, [{red: 1, green: 0, blue: 0, alpha: 1}]:
    [drawCanvas] returns and the context receives the calls in the order
    of the claim, but the [clearColor] call carries four times
    [undefined] instead of the colour given. *)
Theorem drawCanvas_clears_to_undefined :
  let r := run (drawCanvas Mock.webgl Mock.scripts (Some Mock.quad)
                  (Some [Mock.position]) None (Some Mock.red))
             (Mock.new true true) in
  outcome r = Normal ()
  ∧ calls (log r)
    = [ CreateShader 0x8B31;
        ShaderSource (VObj 1) "attribute vec4 a_position; void main() {}";
        CompileShader (VObj 1); GetShaderParameter (VObj 1) 0x8B81;
        CreateShader 0x8B30; ShaderSource (VObj 2) "void main() {}";
        CompileShader (VObj 2); GetShaderParameter (VObj 2) 0x8B81;
        CreateProgram; AttachShader (VObj 3) (VObj 1);
        AttachShader (VObj 3) (VObj 2); LinkProgram (VObj 3);
        GetProgramParameter (VObj 3) 0x8B82; ValidateProgram (VObj 3);
        GetProgramParameter (VObj 3) 0x8B83;
        CreateBuffer; BindBuffer 0x8892 (VObj 4);
        BufferData 0x8892 (Some Mock.quad) 0x88E4;
        GetAttribLocation (VObj 3) "a_position";
        VertexAttribPointer 0 2 0x1406 false 8 0; EnableVertexAttribArray 0;
        Viewport 0 0 300 150;
        ClearColor VUndefined VUndefined VUndefined VUndefined;
        Clear 0x4000; UseProgram (VObj 3); DrawArrays 5 0 4 ]%float.
Proof. vm_compute. done. Qed.

(** The same run with the colour given as [{r: 1, g: 0, b: 0, a: 1}]. *)
Example drawCanvas_end_to_end :
  calls (log (run (drawCanvas Mock.webgl Mock.scripts (Some Mock.quad)
                     (Some [Mock.position]) None (Some (rgba 1 0 0 1)))
                (Mock.new true true)))
  = [ CreateShader 0x8B31;
      ShaderSource (VObj 1) "attribute vec4 a_position; void main() {}";
      CompileShader (VObj 1); GetShaderParameter (VObj 1) 0x8B81;
      CreateShader 0x8B30; ShaderSource (VObj 2) "void main() {}";
      CompileShader (VObj 2); GetShaderParameter (VObj 2) 0x8B81;
      CreateProgram; AttachShader (VObj 3) (VObj 1);
      AttachShader (VObj 3) (VObj 2); LinkProgram (VObj 3);
      GetProgramParameter (VObj 3) 0x8B82; ValidateProgram (VObj 3);
      GetProgramParameter (VObj 3) 0x8B83;
      CreateBuffer; BindBuffer 0x8892 (VObj 4);
      BufferData 0x8892 (Some Mock.quad) 0x88E4;
      GetAttribLocation (VObj 3) "a_position";
      VertexAttribPointer 0 2 0x1406 false 8 0; EnableVertexAttribArray 0;
      Viewport 0 0 300 150;
      ClearColor (VNum 1) (VNum 0) (VNum 0) (VNum 1);
      Clear 0x4000; UseProgram (VObj 3); DrawArrays 5 0 4 ]%float.
Proof. vm_compute. reflexivity. Qed.

(** * More about the helpers *)

Section Outcomes.

Context {Σ : Type} `{!WebGLRenderingContext Σ}.
Variable gl : WebGLConstants.

Lemma makeShader_normal (shaderSource : string) (shaderType : float) (s : Σ)
    (shader : value) :
  let r := run (makeShader gl shaderSource shaderType) s in
  outcome r = Normal shader →
  ∃ status,
    truthy status = true
    ∧ log r = compiling gl shaderSource shaderType shader status.
Proof.
  intros r Hout.
  destruct (makeShader_runs gl shaderSource shaderType s)
    as (shader' & status & [(Hstatus & Hout' & Hlog)|(_ & ? & Hout' & _)]);
    fold r in Hout'; rewrite Hout in Hout'; [|done].
  injection Hout' as ->. by exists status.
Qed.

Lemma makeShader_thrown (shaderSource : string) (shaderType : float) (s : Σ)
    (e : JsError) :
  let r := run (makeShader gl shaderSource shaderType) s in
  outcome r = Thrown e →
  ∃ shader status infoLog,
    truthy status = false
    ∧ e = Error ("ERROR compiling " +:+ kind gl shaderType +:+ " shader: "
                 +:+ ToString infoLog)
    ∧ log r = compiling gl shaderSource shaderType shader status
              ++ [ DeleteShader shader ↦ ();
                   GetShaderInfoLog shader ↦ infoLog ].
Proof.
  intros r Hout.
  destruct (makeShader_runs gl shaderSource shaderType s)
    as (shader & status & [(_ & Hout' & _)|(Hstatus & infoLog & Hout' & Hlog)]);
    fold r in Hout'; rewrite Hout in Hout'; [done|].
  injection Hout' as ->. by exists shader, status, infoLog.
Qed.

Lemma makeProgram_normal (vertexShader fragmentShader : value) (s : Σ)
    (program : value) :
  let r := run (makeProgram gl vertexShader fragmentShader None) s in
  outcome r = Normal program →
  ∃ linked valid,
    truthy linked = true ∧ truthy valid = true
    ∧ log r = linking gl vertexShader fragmentShader program linked
              ++ [ ValidateProgram program ↦ ();
                   GetProgramParameter program (VALIDATE_STATUS gl) ↦ valid ].
Proof.
  intros r Hout.
  destruct (makeProgram_runs gl vertexShader fragmentShader None s)
    as (program' & linked
        & [(_ & ? & Hout' & _)
          |[(_ & [=] & _)
           |(Hlinked & _ & valid
             & [(Hvalid & Hout' & Hlog)|(_ & ? & Hout' & _)])]]);
    fold r in Hout'; rewrite Hout in Hout'; try done.
  injection Hout' as ->. by exists linked, valid.
Qed.

Lemma drawCanvas_unbuilt (document : Document)
    (bufferData : option (list float))
    (attributes : option (list AttributeObject))
    (shaderIds : option (list string))
    (clearColor : option (gmap string value)) (s : Σ) (e : JsError) :
  let built := run (makeProgramFromScripts gl document
                      (default ["vertexShader"; "fragmentShader"] shaderIds))
                 s in
  outcome built = Thrown e →
  run (drawCanvas gl document bufferData attributes shaderIds clearColor) s
  = Ran (Thrown e) (final built) (log built).
Proof.
  intros built Hbuilt. unfold drawCanvas. cbn zeta. rewrite run_bind.
  fold built. by rewrite (followed_thrown _ _ _ Hbuilt).
Qed.

Lemma drawCanvas_built (document : Document)
    (bufferData : option (list float))
    (attributes : option (list AttributeObject))
    (shaderIds : option (list string))
    (clearColor : option (gmap string value)) (s : Σ) (program : value) :
  let colour := default (rgba 0 0 0 0) clearColor in
  let built := run (makeProgramFromScripts gl document
                      (default ["vertexShader"; "fragmentShader"] shaderIds))
                 s in
  let uploaded := run (createBuffer gl program bufferData
                         (default [] attributes) None None) (final built) in
  let r := run (drawCanvas gl document bufferData attributes shaderIds
                  clearColor) s in
  outcome built = Normal program →
  outcome r = Normal ()
  ∧ log r
    = log built ++ log uploaded
      ++ [ Viewport 0 0 (canvas width (final uploaded))
             (canvas height (final uploaded)) ↦ ();
           ClearColor (get colour "r") (get colour "g") (get colour "b")
             (get colour "a") ↦ ();
           Clear (COLOR_BUFFER_BIT gl) ↦ ();
           UseProgram program ↦ ();
           DrawArrays (TRIANGLE_STRIP gl) 0 4 ↦ () ].
Proof.
  intros colour built uploaded r Hbuilt.
  assert (Huploaded : outcome uploaded = Normal ()) by apply createBuffer_runs.
  subst r. unfold drawCanvas. cbn zeta. fold colour.
  rewrite run_bind. fold built. rewrite (followed_normal _ _ _ Hbuilt).
  rewrite run_bind. fold uploaded. rewrite (followed_normal _ _ _ Huploaded).
  clearbody uploaded built. generalize (final uploaded). intros s2. cbn.
  by do 5 answer.
Qed.

Lemma makeProgramFromScripts_normal (document : Document)
    (shaderIds : list string) (s : Σ) (program : value) :
  let r := run (makeProgramFromScripts gl document shaderIds) s in
  outcome r = Normal program →
  ∃ v f vertexShader fragmentShader compiled compiled' linked valid,
    document ("#" +:+ idAt shaderIds 0) = Some v
    ∧ document ("#" +:+ idAt shaderIds 1) = Some f
    ∧ truthy compiled = true ∧ truthy compiled' = true
    ∧ truthy linked = true ∧ truthy valid = true
    ∧ log r
      = compiling gl (textContent v) (VERTEX_SHADER gl) vertexShader compiled
        ++ compiling gl (textContent f) (FRAGMENT_SHADER gl) fragmentShader
             compiled'
        ++ linking gl vertexShader fragmentShader program linked
        ++ [ ValidateProgram program ↦ ();
             GetProgramParameter program (VALIDATE_STATUS gl) ↦ valid ].
Proof.
  intros r. subst r. rewrite makeProgramFromScripts_runs.
  destruct (document ("#" +:+ idAt shaderIds 0)) as [v|]; [|done].
  destruct (outcome (run (makeShader gl (textContent v) (VERTEX_SHADER gl)) s))
    as [vertexShader|e] eqn:Hvertex.
  2:{ by rewrite (followed_thrown _ _ _ Hvertex). }
  rewrite (followed_normal _ _ _ Hvertex).
  destruct (makeShader_normal _ _ _ _ Hvertex) as (compiled & Hcompiled & ->).
  generalize (final (run (makeShader gl (textContent v) (VERTEX_SHADER gl)) s)).
  intros s1.
  destruct (document ("#" +:+ idAt shaderIds 1)) as [f|]; [|done].
  destruct (outcome (run (makeShader gl (textContent f) (FRAGMENT_SHADER gl)) s1))
    as [fragmentShader|e] eqn:Hfragment.
  2:{ by rewrite (followed_thrown _ _ _ Hfragment). }
  rewrite (followed_normal _ _ _ Hfragment).
  destruct (makeShader_normal _ _ _ _ Hfragment)
    as (compiled' & Hcompiled' & ->).
  generalize
    (final (run (makeShader gl (textContent f) (FRAGMENT_SHADER gl)) s1)).
  intros s2. cbn [outcome log]. intros Hprogram.
  destruct (makeProgram_normal _ _ _ _ Hprogram)
    as (linked & valid & Hlinked & Hvalid & ->).
  by exists v, f, vertexShader, fragmentShader, compiled, compiled', linked,
    valid.
Qed.

End Outcomes.

(** X1. Over any context, [makeShader] creates a shader of the type
    given, sets its source, compiles it and asks for its compile status,
    in this order and on the shader the context handed out, whatever that
    is.  If the status is truthy it returns that shader and makes no other
    call.  If it is falsy it deletes that shader, asks for its log after
    the deletion, and throws an [Error] whose message names the kind,
    ["vertex"] for [gl.VERTEX_SHADER] and ["fragment"] for any other type,
    followed by the log as answered then. *)
Theorem makeShader_outcomes
    {Σ : Type} `{!WebGLRenderingContext Σ} (gl : WebGLConstants)
    (shaderSource : string) (shaderType : float) (s : Σ) :
  let r := run (makeShader gl shaderSource shaderType) s in
  ∃ shader status,
    if truthy status
    then outcome r = Normal shader
         ∧ log r = compiling gl shaderSource shaderType shader status
    else ∃ infoLog,
           outcome r
           = Thrown (Error ("ERROR compiling "
                            +:+ (if PrimFloat.eqb shaderType (VERTEX_SHADER gl)
                                 then "vertex" else "fragment")
                            +:+ " shader: " +:+ ToString infoLog))
           ∧ log r = compiling gl shaderSource shaderType shader status
                     ++ [ DeleteShader shader ↦ ();
                          GetShaderInfoLog shader ↦ infoLog ].
Proof.
  intros r.
  destruct (makeShader_runs gl shaderSource shaderType s)
    as (shader & status
        & [(Hstatus & Hout & Hlog)|(Hstatus & infoLog & Hout & Hlog)]);
    exists shader, status; rewrite Hstatus; [done|].
  by exists infoLog.
Qed.

(** X2. With [validate] left out or [true], [makeProgram] creates a
    program, attaches the vertex shader and then the fragment shader,
    links and asks for the link status.  If that is falsy it reads the
    program's log and throws the link error, without any validation call.
    Otherwise it validates and asks for the validation status: if truthy
    it returns the program it created, and if falsy it reads the log and
    throws the validation error. *)
Theorem makeProgram_validates_after_link
    {Σ : Type} `{!WebGLRenderingContext Σ} (gl : WebGLConstants)
    (vertexShader fragmentShader : value) (validate : option bool) (s : Σ) :
  let r := run (makeProgram gl vertexShader fragmentShader validate) s in
  default true validate = true →
  ∃ program linked,
    let l := linking gl vertexShader fragmentShader program linked in
    if truthy linked
    then ∃ valid,
           let l' := l ++ [ ValidateProgram program ↦ ();
                            GetProgramParameter program (VALIDATE_STATUS gl)
                              ↦ valid ] in
           if truthy valid
           then outcome r = Normal program ∧ log r = l'
           else ∃ infoLog,
                  outcome r = Thrown (Error ("ERROR validating program: "
                                             +:+ ToString infoLog))
                  ∧ log r = l' ++ [GetProgramInfoLog program ↦ infoLog]
    else ∃ infoLog,
           outcome r = Thrown (Error ("ERROR linking program: "
                                      +:+ ToString infoLog))
           ∧ log r = l ++ [GetProgramInfoLog program ↦ infoLog].
Proof.
  intros r Hvalidate.
  destruct (makeProgram_runs gl vertexShader fragmentShader validate s)
    as (program & linked
        & [(Hlinked & infoLog & Hout & Hlog)
          |[(_ & Hoff & _)
           |(Hlinked & _ & valid
             & [(Hvalid & Hout & Hlog)|(Hvalid & infoLog & Hout & Hlog)])]]);
    [|congruence| |]; exists program, linked; rewrite Hlinked; cbn zeta.
  - by exists infoLog.
  - exists valid. by rewrite Hvalid.
  - exists valid. rewrite Hvalid. by exists infoLog.
Qed.

(** X2 at the mock whose validation fails, with [validate] left out. *)
Lemma makeProgram_validates_after_link_witness :
  let r := run (makeProgram Mock.webgl (VObj 7) (VObj 8) None)
             (Mock.new true false) in
  ∃ program linked,
    let l := linking Mock.webgl (VObj 7) (VObj 8) program linked in
    if truthy linked
    then ∃ valid,
           let l' := l ++ [ ValidateProgram program ↦ ();
                            GetProgramParameter program
                              (VALIDATE_STATUS Mock.webgl) ↦ valid ] in
           if truthy valid
           then outcome r = Normal program ∧ log r = l'
           else ∃ infoLog,
                  outcome r = Thrown (Error ("ERROR validating program: "
                                             +:+ ToString infoLog))
                  ∧ log r = l' ++ [GetProgramInfoLog program ↦ infoLog]
    else ∃ infoLog,
           outcome r = Thrown (Error ("ERROR linking program: "
                                      +:+ ToString infoLog))
           ∧ log r = l ++ [GetProgramInfoLog program ↦ infoLog].
Proof.
  apply (makeProgram_validates_after_link Mock.webgl (VObj 7) (VObj 8) None
           (Mock.new true false)).
  reflexivity.
Defined.

(** X3. When [makeProgramFromScripts] returns a program, both elements
    were found, and the context has received exactly: the compilation of
    the first element's text as a vertex shader, the compilation of the
    second element's text as a fragment shader, the link of a new program
    with the vertex shader attached first, and the validation of that
    program; the four statuses were truthy, and the program returned is
    the one the context created. *)
Theorem makeProgramFromScripts_success
    {Σ : Type} `{!WebGLRenderingContext Σ} (gl : WebGLConstants)
    (document : Document) (shaderIds : list string) (s : Σ)
    (program : value) :
  let r := run (makeProgramFromScripts gl document shaderIds) s in
  outcome r = Normal program →
  ∃ v f vertexShader fragmentShader compiled compiled' linked valid,
    document ("#" +:+ idAt shaderIds 0) = Some v
    ∧ document ("#" +:+ idAt shaderIds 1) = Some f
    ∧ truthy compiled = true ∧ truthy compiled' = true
    ∧ truthy linked = true ∧ truthy valid = true
    ∧ log r
      = compiling gl (textContent v) (VERTEX_SHADER gl) vertexShader compiled
        ++ compiling gl (textContent f) (FRAGMENT_SHADER gl) fragmentShader
             compiled'
        ++ linking gl vertexShader fragmentShader program linked
        ++ [ ValidateProgram program ↦ ();
             GetProgramParameter program (VALIDATE_STATUS gl) ↦ valid ].
Proof. apply makeProgramFromScripts_normal. Qed.

(** X3 at the mock and the page with the two script tags. *)
Lemma makeProgramFromScripts_success_witness :
  let r := run (makeProgramFromScripts Mock.webgl Mock.scripts
                  ["vertexShader"; "fragmentShader"]) (Mock.new true true) in
  ∃ v f vertexShader fragmentShader compiled compiled' linked valid,
    Mock.scripts "#vertexShader" = Some v
    ∧ Mock.scripts "#fragmentShader" = Some f
    ∧ truthy compiled = true ∧ truthy compiled' = true
    ∧ truthy linked = true ∧ truthy valid = true
    ∧ log r
      = compiling Mock.webgl (textContent v) (VERTEX_SHADER Mock.webgl)
          vertexShader compiled
        ++ compiling Mock.webgl (textContent f) (FRAGMENT_SHADER Mock.webgl)
             fragmentShader compiled'
        ++ linking Mock.webgl vertexShader fragmentShader (VObj 3) linked
        ++ [ ValidateProgram (VObj 3) ↦ ();
             GetProgramParameter (VObj 3) (VALIDATE_STATUS Mock.webgl)
               ↦ valid ].
Proof.
  apply (makeProgramFromScripts_success Mock.webgl Mock.scripts
           ["vertexShader"; "fragmentShader"] (Mock.new true true) (VObj 3)).
  reflexivity.
Defined.

(** X4. When the vertex shader compiles and the fragment shader does
    not, [makeProgramFromScripts] throws the fragment shader's compile
    error, and the one releasing call of the whole run is the deletion of
    the shader created second: the compiled vertex shader is left in the
    context. *)
Theorem fragment_failure_keeps_vertex_shader
    {Σ : Type} `{!WebGLRenderingContext Σ} (gl : WebGLConstants)
    (document : Document) (shaderIds : list string) (s : Σ)
    (v f : Element) (vertexShader : value) (e : JsError) :
  let r1 := run (makeShader gl (textContent v) (VERTEX_SHADER gl)) s in
  let r2 := run (makeShader gl (textContent f) (FRAGMENT_SHADER gl))
              (final r1) in
  let r := run (makeProgramFromScripts gl document shaderIds) s in
  document ("#" +:+ idAt shaderIds 0) = Some v →
  document ("#" +:+ idAt shaderIds 1) = Some f →
  outcome r1 = Normal vertexShader →
  outcome r2 = Thrown e →
  ∃ fragmentShader,
    log r2 !! 0 = Some (CreateShader (FRAGMENT_SHADER gl) ↦ fragmentShader)
    ∧ outcome r = Thrown e
    ∧ List.filter releasing (calls (log r)) = [DeleteShader fragmentShader].
Proof.
  intros r1 r2 r Hv Hf Hr1 Hr2. subst r.
  rewrite makeProgramFromScripts_runs, Hv, (followed_normal _ _ _ Hr1), Hf.
  fold r1. fold r2. rewrite (followed_thrown _ _ _ Hr2). cbn [outcome log].
  destruct (makeShader_normal gl _ _ _ _ Hr1) as (compiled & _ & Hlog1).
  destruct (makeShader_thrown gl _ _ _ _ Hr2)
    as (fragmentShader & status & infoLog & _ & _ & Hlog2).
  fold r1 in Hlog1. fold r2 in Hlog2. exists fragmentShader.
  by rewrite Hlog1, Hlog2.
Qed.

(** X4 at the mock and a page whose fragment shader does not compile. *)
Lemma fragment_failure_keeps_vertex_shader_witness :
  let r := run (makeProgramFromScripts Mock.webgl bad_fragment
                  ["vertexShader"; "fragmentShader"]) (Mock.new true true) in
  outcome r = Thrown (Error "ERROR compiling fragment shader: null")
  ∧ List.filter releasing (calls (log r)) = [DeleteShader (VObj 2)]
  ∧ Mock.shaders (final r) !! 1%N
    = Some (Mock.Shader "attribute vec4 a_position; void main() {}"
              (Some EmptyString) true).
Proof.
  intros r.
  destruct (fragment_failure_keeps_vertex_shader Mock.webgl bad_fragment
              ["vertexShader"; "fragmentShader"] (Mock.new true true)
              {| textContent := "attribute vec4 a_position; void main() {}" |}
              {| textContent := "!void main() {}" |} (VObj 1)
              (Error "ERROR compiling fragment shader: null"))
    as (fragmentShader & Hcreated & Hout & Hreleased); try reflexivity.
  apply (f_equal (λ i, match i with
                         | Some (CreateShader _ ↦ shader) => shader
                         | _ => VNull
                         end)) in Hcreated.
  vm_compute in Hcreated. subst fragmentShader.
  split; [exact Hout|]. split; [exact Hreleased|]. reflexivity.
Defined.

(** X5. When both shaders compile, no run of [makeProgramFromScripts]
    makes a releasing call, whatever becomes of the link and of the
    validation: after a link or validation error the two shaders and the
    program are left in the context. *)
Theorem compiled_shaders_are_never_released
    {Σ : Type} `{!WebGLRenderingContext Σ} (gl : WebGLConstants)
    (document : Document) (shaderIds : list string) (s : Σ)
    (v f : Element) (vertexShader fragmentShader : value) :
  let r1 := run (makeShader gl (textContent v) (VERTEX_SHADER gl)) s in
  let r2 := run (makeShader gl (textContent f) (FRAGMENT_SHADER gl))
              (final r1) in
  let r3 := run (makeProgram gl vertexShader fragmentShader None)
              (final r2) in
  let r := run (makeProgramFromScripts gl document shaderIds) s in
  document ("#" +:+ idAt shaderIds 0) = Some v →
  document ("#" +:+ idAt shaderIds 1) = Some f →
  outcome r1 = Normal vertexShader →
  outcome r2 = Normal fragmentShader →
  outcome r = outcome r3
  ∧ List.filter releasing (calls (log r)) = [].
Proof.
  intros r1 r2 r3 r Hv Hf Hr1 Hr2. subst r.
  rewrite makeProgramFromScripts_runs, Hv, (followed_normal _ _ _ Hr1), Hf.
  fold r1. fold r2. rewrite (followed_normal _ _ _ Hr2). fold r3.
  cbn [outcome log]. split; [done|].
  destruct (makeShader_normal gl _ _ _ _ Hr1) as (compiled & _ & Hlog1).
  destruct (makeShader_normal gl _ _ _ _ Hr2) as (compiled' & _ & Hlog2).
  fold r1 in Hlog1. fold r2 in Hlog2.
  assert (Hlog3 : List.filter releasing (calls (log r3)) = []).
  { apply filter_none, run_makes, makeProgram_makes. by intros c Hc _. }
  by rewrite !calls_app, !List.filter_app, Hlog1, Hlog2, Hlog3.
Qed.

(** X5 at the mock whose link fails. *)
Lemma compiled_shaders_are_never_released_witness :
  let r := run (makeProgramFromScripts Mock.webgl Mock.scripts
                  ["vertexShader"; "fragmentShader"]) (Mock.new false true) in
  outcome r = Thrown (Error "ERROR linking program: link failed")
  ∧ List.filter releasing (calls (log r)) = [].
Proof.
  intros r.
  destruct (compiled_shaders_are_never_released Mock.webgl Mock.scripts
              ["vertexShader"; "fragmentShader"] (Mock.new false true)
              {| textContent := "attribute vec4 a_position; void main() {}" |}
              {| textContent := "void main() {}" |} (VObj 1) (VObj 2))
    as (Hout & Hreleased); try reflexivity.
  split; [|exact Hreleased]. fold r in Hout. rewrite Hout. reflexivity.
Defined.

Lemma makeProgramFromScripts_building (gl : WebGLConstants)
    (document : Document) (shaderIds : list string) :
  makes (λ c, building c = true) (makeProgramFromScripts gl document shaderIds).
Proof.
  unfold makeProgramFromScripts.
  assert (Hscript : ∀ selector,
            makes (λ c, building c = true) (scriptText document selector)).
  { intros selector. unfold scriptText. case_match; exact I. }
  assert (Hshader : ∀ shaderSource shaderType,
            makes (λ c, building c = true)
              (makeShader gl shaderSource shaderType)).
  { intros shaderSource shaderType. unfold makeShader. each_call; reflexivity. }
  apply makes_bind; [apply Hscript|intros vertexSource].
  apply makes_bind; [apply Hshader|intros vertexShader].
  apply makes_bind; [apply Hscript|intros fragmentSource].
  apply makes_bind; [apply Hshader|intros fragmentShader].
  unfold makeProgram. each_call; reflexivity.
Qed.

Lemma setups_quiet (program : value) (attributes : list AttributeObject)
    (ls : list float) :
  let l := mjoin (zip_with (setup program) attributes ls) in
  List.filter creating (calls l) = []
  ∧ List.filter releasing (calls l) = []
  ∧ (length ls = length attributes → length l = 3 * length attributes).
Proof.
  revert ls. induction attributes as [|attr attributes IH]; intros [|location ls];
    try done.
  destruct (IH ls) as (Hcreating & Hreleasing & Hlength).
  split; [exact Hcreating|]. split; [exact Hreleasing|]. intros [= Hlen].
  specialize (Hlength Hlen).
  change (S (S (S (length (mjoin (zip_with (setup program) attributes ls)))))
          = 3 * S (length attributes)).
  lia.
Qed.

(** X6. When the build of the program fails, [drawCanvas] throws the
    same error right after the calls of the build: every call of the run
    is a call on a shader or a program, so no buffer is created, no
    attribute is set up, the canvas is not cleared and nothing is
    drawn. *)
Theorem drawCanvas_stops_at_failed_build
    {Σ : Type} `{!WebGLRenderingContext Σ} (gl : WebGLConstants)
    (document : Document) (bufferData : option (list float))
    (attributes : option (list AttributeObject))
    (shaderIds : option (list string))
    (clearColor : option (gmap string value)) (s : Σ) (e : JsError) :
  let built := run (makeProgramFromScripts gl document
                      (default ["vertexShader"; "fragmentShader"] shaderIds))
                 s in
  let r := run (drawCanvas gl document bufferData attributes shaderIds
                  clearColor) s in
  outcome built = Thrown e →
  r = Ran (Thrown e) (final built) (log built)
  ∧ Forall (λ c, building c = true) (calls (log r)).
Proof.
  intros built r Hbuilt. subst r.
  rewrite (drawCanvas_unbuilt gl _ _ _ _ _ _ _ Hbuilt). split; [done|].
  apply run_makes, makeProgramFromScripts_building.
Qed.

(** X6 at the mock and the page whose vertex shader does not compile. *)
Lemma drawCanvas_stops_at_failed_build_witness :
  let r := run (drawCanvas Mock.webgl Mock.broken (Some Mock.quad)
                  (Some [Mock.position]) None (Some (rgba 1 0 0 1)))
             (Mock.new true true) in
  outcome r = Thrown (Error "ERROR compiling vertex shader: null")
  ∧ Forall (λ c, building c = true) (calls (log r)).
Proof.
  intros r.
  destruct (drawCanvas_stops_at_failed_build Mock.webgl Mock.broken
              (Some Mock.quad) (Some [Mock.position]) None
              (Some (rgba 1 0 0 1)) (Mock.new true true)
              (Error "ERROR compiling vertex shader: null"))
    as [Hr Hcalls]; [reflexivity|].
  split; [|exact Hcalls]. fold r in Hr. by rewrite Hr.
Defined.

(** X7. A run of [drawCanvas] that returns has created exactly four
    objects, a vertex shader, a fragment shader, a program and a buffer,
    in this order, and has released none of them: every frame drawn leaves
    four new objects in the context. *)
Theorem drawCanvas_allocates_and_keeps
    {Σ : Type} `{!WebGLRenderingContext Σ} (gl : WebGLConstants)
    (document : Document) (bufferData : option (list float))
    (attributes : option (list AttributeObject))
    (shaderIds : option (list string))
    (clearColor : option (gmap string value)) (s : Σ) :
  let r := run (drawCanvas gl document bufferData attributes shaderIds
                  clearColor) s in
  outcome r = Normal () →
  List.filter creating (calls (log r))
  = [ CreateShader (VERTEX_SHADER gl); CreateShader (FRAGMENT_SHADER gl);
      CreateProgram; CreateBuffer ]
  ∧ List.filter releasing (calls (log r)) = [].
Proof.
  intros r Hr.
  destruct (outcome (run (makeProgramFromScripts gl document
                            (default ["vertexShader"; "fragmentShader"]
                               shaderIds)) s)) as [program|e] eqn:Hbuilt.
  2:{ subst r. by rewrite (drawCanvas_unbuilt gl _ _ _ _ _ _ _ Hbuilt) in Hr. }
  destruct (drawCanvas_built gl document bufferData attributes shaderIds
              clearColor s program Hbuilt) as [_ Hlog].
  destruct (makeProgramFromScripts_normal gl _ _ _ _ Hbuilt)
    as (v & f & vertexShader & fragmentShader & compiled & compiled' & linked
        & valid & _ & _ & _ & _ & _ & _ & Hlog1).
  destruct (createBuffer_runs gl program bufferData (default [] attributes)
              None None
              (final (run (makeProgramFromScripts gl document
                             (default ["vertexShader"; "fragmentShader"]
                                shaderIds)) s)))
    as (_ & _ & buffer & Hlog2).
  destruct (setups_quiet program (default [] attributes)
              (locations (log (run (createBuffer gl program bufferData
                 (default [] attributes) None None)
                 (final (run (makeProgramFromScripts gl document
                                (default ["vertexShader"; "fragmentShader"]
                                   shaderIds)) s))))))
    as (Hcreating & Hreleasing & _).
  fold r in Hlog. rewrite Hlog, Hlog1, Hlog2.
  rewrite !calls_app, !List.filter_app, Hcreating, Hreleasing. done.
Qed.

(** X7 at the mock, on the inputs of the end-to-end example. *)
Lemma drawCanvas_allocates_and_keeps_witness :
  let r := run (drawCanvas Mock.webgl Mock.scripts (Some Mock.quad)
                  (Some [Mock.position]) None (Some (rgba 1 0 0 1)))
             (Mock.new true true) in
  List.filter creating (calls (log r))
  = [ CreateShader 0x8B31; CreateShader 0x8B30; CreateProgram; CreateBuffer ]
  ∧ List.filter releasing (calls (log r)) = [].
Proof.
  apply (drawCanvas_allocates_and_keeps Mock.webgl Mock.scripts
           (Some Mock.quad) (Some [Mock.position]) None
           (Some (rgba 1 0 0 1)) (Mock.new true true)).
  reflexivity.
Defined.

(** X8. [createBuffer] starts with three calls: it creates a buffer,
    binds the buffer the context handed out to the target, and uploads
    the data (or [null], as given) to the same target with the usage; the
    target is [gl.ARRAY_BUFFER] and the usage [gl.STATIC_DRAW] when left
    out.  With N descriptors the run makes exactly 3 + 3 N calls, so with
    an empty list these three are all. *)
Theorem createBuffer_buffer_calls
    {Σ : Type} `{!WebGLRenderingContext Σ} (gl : WebGLConstants)
    (program : value) (bufferData : option (list float))
    (attributes : list AttributeObject) (type' bufferDataType : option float)
    (s : Σ) :
  let r := run (createBuffer gl program bufferData attributes type'
                  bufferDataType) s in
  let target := default (ARRAY_BUFFER gl) type' in
  let usage := default (STATIC_DRAW gl) bufferDataType in
  length (log r) = 3 + 3 * length attributes
  ∧ ∃ buffer,
      take 3 (log r)
      = [ CreateBuffer ↦ buffer;
          BindBuffer target buffer ↦ ();
          BufferData target bufferData usage ↦ () ].
Proof.
  intros r target usage.
  destruct (createBuffer_runs gl program bufferData attributes type'
              bufferDataType s) as (_ & Hlen & buffer & Hlog).
  fold r in Hlen, Hlog.
  destruct (setups_quiet program attributes (locations (log r)))
    as (_ & _ & Hlength).
  remember (locations (log r)) as found eqn:Hfound. clear Hfound.
  rewrite Hlog. split.
  - rewrite length_app, (Hlength Hlen). done.
  - by exists buffer.
Qed.

(** X9. A descriptor made by [createAttribute] and given to
    [createBuffer] reaches the context as: the query of the location of
    its name on the program, the pointer call at the location the context
    answered to that query, with the number of elements, the type, the
    normalisation flag ([false] when left out), the stride
    [numVertex * typeSize] and the offset [offset * typeSize] (an element
    being 4 bytes and the offset 0 when left out), and the enabling of
    that same location. *)
Theorem createAttribute_reaches_pointer
    {Σ : Type} `{!WebGLRenderingContext Σ} (gl : WebGLConstants)
    (program : value) (bufferData : option (list float))
    (name' : string) (numElements numVertex type' : float)
    (offset' typeSize : option float) (normalized' : option bool) (s : Σ) :
  let attr := createAttribute name' numElements numVertex type' offset'
                typeSize normalized' in
  let r := run (createBuffer gl program bufferData [attr] None None) s in
  ∃ buffer location,
    log r
    = [ CreateBuffer ↦ buffer;
        BindBuffer (ARRAY_BUFFER gl) buffer ↦ ();
        BufferData (ARRAY_BUFFER gl) bufferData (STATIC_DRAW gl) ↦ ();
        GetAttribLocation program name' ↦ location;
        VertexAttribPointer location numElements type'
          (default false normalized')
          (numVertex * default 4 typeSize)
          (default 0 offset' * default 4 typeSize) ↦ ();
        EnableVertexAttribArray location ↦ () ]%float.
Proof.
  intros attr r. subst r attr. unfold createBuffer, configure. cbn.
  do 6 answer. by exists r, r0.
Qed.

(** X10. [clearCanvas] reads nothing of the colour object but its
    properties [r], [g], [b] and [a]: on two colour objects that agree on
    these four, absent ones included, its runs are the same. *)
Theorem clearCanvas_reads_rgba_only
    {Σ : Type} `{!WebGLRenderingContext Σ} (gl : WebGLConstants)
    (color color' : gmap string value) (s : Σ) :
  Forall (λ p, color !! p = color' !! p) ["r"; "g"; "b"; "a"] →
  run (clearCanvas gl color) s = run (clearCanvas gl color') s.
Proof.
  intros Hsame. unfold clearCanvas, get.
  repeat match goal with
         | H : Forall _ (_ :: _) |- _ =>
             apply Forall_cons in H; destruct H as [-> H]
         end.
  done.
Qed.

(** X10 at a colour object and the same with the four properties of the
    typedef added. *)
Lemma clearCanvas_reads_rgba_only_witness :
  run (clearCanvas Mock.webgl (rgba 1 0 0 1)) (Mock.new true true)
  = run (clearCanvas Mock.webgl (Mock.red ∪ rgba 1 0 0 1)) (Mock.new true true).
Proof.
  apply (clearCanvas_reads_rgba_only Mock.webgl (rgba 1 0 0 1)
           (Mock.red ∪ rgba 1 0 0 1) (Mock.new true true)).
  repeat constructor.
Defined.

(** X11. With every optional argument left out, a run of [drawCanvas]
    whose program builds from the elements [vertexShader] and
    [fragmentShader] then makes these calls and no other: it creates a
    buffer, binds it to [gl.ARRAY_BUFFER], uploads [null] with
    [gl.STATIC_DRAW], sets no attribute up, sets the viewport to the
    canvas, clears to the colour 0, 0, 0, 0, uses the program and draws
    the four vertices. *)
Theorem drawCanvas_defaults
    {Σ : Type} `{!WebGLRenderingContext Σ} (gl : WebGLConstants)
    (document : Document) (s : Σ) (program : value) :
  let built := run (makeProgramFromScripts gl document
                      ["vertexShader"; "fragmentShader"]) s in
  let uploaded := run (createBuffer gl program None [] None None)
                    (final built) in
  let r := run (drawCanvas gl document None None None None) s in
  outcome built = Normal program →
  outcome r = Normal ()
  ∧ ∃ buffer,
      calls (log r)
      = calls (log built)
        ++ [ CreateBuffer;
             BindBuffer (ARRAY_BUFFER gl) buffer;
             BufferData (ARRAY_BUFFER gl) None (STATIC_DRAW gl);
             Viewport 0 0 (canvas width (final uploaded))
               (canvas height (final uploaded));
             ClearColor (VNum 0) (VNum 0) (VNum 0) (VNum 0);
             Clear (COLOR_BUFFER_BIT gl);
             UseProgram program;
             DrawArrays (TRIANGLE_STRIP gl) 0 4 ].
Proof.
  intros built uploaded r Hbuilt.
  destruct (drawCanvas_built gl document None None None None s program Hbuilt)
    as [Hout Hlog].
  destruct (createBuffer_runs gl program None [] None None (final built))
    as (_ & _ & buffer & Hupload).
  cbn [default] in Hlog. fold built uploaded r in Hout, Hlog.
  fold uploaded in Hupload.
  split; [exact Hout|]. exists buffer.
  rewrite Hlog, !calls_app. f_equal. rewrite Hupload. reflexivity.
Qed.

(** X11 at the mock and the page with the two script tags. *)
Lemma drawCanvas_defaults_witness :
  let r := run (drawCanvas Mock.webgl Mock.scripts None None None None)
             (Mock.new true true) in
  outcome r = Normal ()
  ∧ List.filter (λ c, negb (building c)) (calls (log r))
    = [ CreateBuffer; BindBuffer 0x8892 (VObj 4);
        BufferData 0x8892 None 0x88E4;
        Viewport 0 0 300 150;
        ClearColor (VNum 0) (VNum 0) (VNum 0) (VNum 0);
        Clear 0x4000; UseProgram (VObj 3); DrawArrays 5 0 4 ]%float.
Proof.
  intros r.
  destruct (drawCanvas_defaults Mock.webgl Mock.scripts (Mock.new true true)
              (VObj 3)) as (Hout & buffer & Hcalls); [reflexivity|].
  split; [exact Hout|]. reflexivity.
Defined.

(** X12. An empty array of identifiers is not replaced by the default
    pair: [drawCanvas] then looks for the element [#undefined], and on a
    document without one it throws the [TypeError] before any call of the
    context. *)
Theorem drawCanvas_empty_ids
    {Σ : Type} `{!WebGLRenderingContext Σ} (gl : WebGLConstants)
    (document : Document) (bufferData : option (list float))
    (attributes : option (list AttributeObject))
    (clearColor : option (gmap string value)) (s : Σ) :
  document "#undefined" = None →
  run (drawCanvas gl document bufferData attributes (Some []) clearColor) s
  = Ran (Thrown TypeError) s [].
Proof.
  intros Hmissing.
  assert (Hbuilt : run (makeProgramFromScripts gl document []) s
                   = Ran (Thrown TypeError) s []).
  { rewrite makeProgramFromScripts_runs.
    change ("#" +:+ idAt [] 0) with "#undefined". by rewrite Hmissing. }
  pose proof (drawCanvas_unbuilt gl document bufferData attributes (Some [])
                clearColor s TypeError) as Hstops.
  cbv zeta in Hstops. simpl default in Hstops.
  rewrite Hstops; by rewrite Hbuilt.
Qed.

(** X12 at the mock and the page with the two script tags. *)
Lemma drawCanvas_empty_ids_witness :
  run (drawCanvas Mock.webgl Mock.scripts (Some Mock.quad)
         (Some [Mock.position]) (Some []) None) (Mock.new true true)
  = Ran (Thrown TypeError) (Mock.new true true) [].
Proof.
  apply (drawCanvas_empty_ids Mock.webgl Mock.scripts (Some Mock.quad)
           (Some [Mock.position]) None (Mock.new true true)).
  reflexivity.
Defined.

(** X13. When [makeProgramFromScripts] returns a program, [drawCanvas]
    returns, and the context has received exactly these calls, in this
    order: the compilation of the vertex shader and of the fragment
    shader, the link and the validation of a new program; the creation of
    a buffer, its binding to [gl.ARRAY_BUFFER] and the upload of the data
    with [gl.STATIC_DRAW]; for each descriptor in the order of the list,
    the query of its location on the program, the pointer call and the
    enabling call at the location answered; one [viewport] call with 0, 0
    and the width and height the canvas has at that moment; one
    [clearColor] call with the properties [r], [g], [b] and [a] of the
    colour object ([{r: 0, g: 0, b: 0, a: 0}] when left out); one [clear]
    call of the colour buffer; one [useProgram] call with the program
    built; one [drawArrays] call with [gl.TRIANGLE_STRIP], 0 and 4.  The
    last five are the only calls of their kinds. *)
Theorem drawCanvas_call_order
    {Σ : Type} `{!WebGLRenderingContext Σ} (gl : WebGLConstants)
    (document : Document) (bufferData : option (list float))
    (attributes : option (list AttributeObject))
    (shaderIds : option (list string))
    (clearColor : option (gmap string value)) (s : Σ) (program : value) :
  let ids := default ["vertexShader"; "fragmentShader"] shaderIds in
  let attrs := default [] attributes in
  let colour := default (rgba 0 0 0 0) clearColor in
  let built := run (makeProgramFromScripts gl document ids) s in
  let uploaded := run (createBuffer gl program bufferData attrs None None)
                    (final built) in
  let frame :=
    [ Viewport 0 0 (canvas width (final uploaded))
        (canvas height (final uploaded)) ↦ ();
      ClearColor (get colour "r") (get colour "g") (get colour "b")
        (get colour "a") ↦ ();
      Clear (COLOR_BUFFER_BIT gl) ↦ ();
      UseProgram program ↦ ();
      DrawArrays (TRIANGLE_STRIP gl) 0 4 ↦ () ] in
  let r := run (drawCanvas gl document bufferData attributes shaderIds
                  clearColor) s in
  outcome built = Normal program →
  outcome r = Normal ()
  ∧ List.filter drawing (calls (log r)) = calls frame
  ∧ ∃ v f vertexShader fragmentShader compiled compiled' linked valid buffer
      found,
      document ("#" +:+ idAt ids 0) = Some v
      ∧ document ("#" +:+ idAt ids 1) = Some f
      ∧ length found = length attrs
      ∧ log r
        = compiling gl (textContent v) (VERTEX_SHADER gl) vertexShader
            compiled
          ++ compiling gl (textContent f) (FRAGMENT_SHADER gl) fragmentShader
               compiled'
          ++ linking gl vertexShader fragmentShader program linked
          ++ [ ValidateProgram program ↦ ();
               GetProgramParameter program (VALIDATE_STATUS gl) ↦ valid ]
          ++ [ CreateBuffer ↦ buffer;
               BindBuffer (ARRAY_BUFFER gl) buffer ↦ ();
               BufferData (ARRAY_BUFFER gl) bufferData (STATIC_DRAW gl) ↦ () ]
          ++ mjoin (zip_with (setup program) attrs found)
          ++ frame.
Proof.
  intros ids attrs colour built uploaded frame r Hbuilt.
  destruct (drawCanvas_built gl document bufferData attributes shaderIds
              clearColor s program Hbuilt) as [Hout Hlog].
  fold ids attrs colour built uploaded frame r in Hout, Hlog.
  destruct (makeProgramFromScripts_normal gl document ids s program Hbuilt)
    as (v & f & vertexShader & fragmentShader & compiled & compiled' & linked
        & valid & Hv & Hf & _ & _ & _ & _ & Hlog1).
  fold built in Hlog1.
  destruct (createBuffer_runs gl program bufferData attrs None None
              (final built)) as (_ & Hlen & buffer & Hlog2).
  fold uploaded in Hlen, Hlog2.
  split; [exact Hout|]. split.
  - rewrite Hlog, !calls_app, !List.filter_app.
    rewrite (filter_none drawing (calls (log built))).
    2:{ by apply run_makes, makeProgramFromScripts_makes. }
    rewrite (filter_none drawing (calls (log uploaded))).
    2:{ by apply run_makes, createBuffer_makes. }
    done.
  - exists v, f, vertexShader, fragmentShader, compiled, compiled', linked,
      valid, buffer, (locations (log uploaded)).
    do 3 (split; [done|]).
    rewrite Hlog, Hlog1. rewrite Hlog2 at 1. cbn [default].
    by rewrite <-!(assoc_L (++)).
Qed.

(** X13 at the mock, on the inputs of the end-to-end example: the quad,
    one attribute of two components and the clear colour
    [{r: 1, g: 0, b: 0, a: 1}]. *)
Lemma drawCanvas_call_order_witness :
  let r := run (drawCanvas Mock.webgl Mock.scripts (Some Mock.quad)
                  (Some [Mock.position]) None (Some (rgba 1 0 0 1)))
             (Mock.new true true) in
  outcome r = Normal ()
  ∧ List.filter drawing (calls (log r))
    = [ Viewport 0 0 300 150;
        ClearColor (VNum 1) (VNum 0) (VNum 0) (VNum 1);
        Clear 0x4000; UseProgram (VObj 3); DrawArrays 5 0 4 ]%float
  ∧ length (log r) = 26.
Proof.
  intros r.
  destruct (drawCanvas_call_order Mock.webgl Mock.scripts (Some Mock.quad)
              (Some [Mock.position]) None (Some (rgba 1 0 0 1))
              (Mock.new true true) (VObj 3))
    as (Hout & Hframe & v & f & vertexShader & fragmentShader & compiled
        & compiled' & linked & valid & buffer & found & _ & _ & Hfound & Hlog);
    [reflexivity|].
  split; [exact Hout|]. fold r in Hframe, Hlog. split.
  - rewrite Hframe. reflexivity.
  - rewrite Hlog. destruct found as [|location [|? found]]; try discriminate.
    reflexivity.
Defined.
